(** * pw_unit_test: the test framework of [pw_unit_test/framework.h]

    A shallow embedding of the Pigweed unit-test framework: the singleton
    [Framework], the statically allocated [TestInfo] records linked through
    their [next] pointers, the [TEST]/[EXPECT_*]/[ASSERT_*] macros, and the
    run of all registered tests.

    The header declares [RegisterTest], [RunAllTests], [StartTest], [EndTest]
    and [ExpectationResult] but their bodies live in [framework.cc], and the
    event-handler interface lives in [pw_unit_test/event_handler.h]; those
    parts are modelled from the specification and marked as such. *)

From Stdlib Require Import ZArith Strings.Byte.
From stdpp Require Import gmap strings list.

Local Open Scope string_scope.
Local Open Scope list_scope.
Local Open Scope Z_scope.

(** ** Event handler interface *)

(** Modelled from the spec: [TestResult] (event_handler.h) is the per-test
    outcome, pass or fail. *)
Inductive TestResult := kSuccess | kFailure.

(** Modelled from the spec: [RunTestsSummary] (event_handler.h) counts the
    passed and the failed tests of one full run. *)
Record RunTestsSummary := mkSummary {
  passed_tests : Z;
  failed_tests : Z
}.

(** Modelled from the spec: the three notifications of the Event Reporter,
    [on_test_start(suite, case, file)], [on_test_end(suite, case, file,
    outcome)] and [on_expectation_result(description, line, success)]. *)
Inductive Event :=
| on_test_start (suite case file : string)
| on_test_end (suite case file : string) (outcome : TestResult)
| on_expectation_result (description : string) (line : Z) (success : bool).

(** Modelled from the spec: an [EventHandler] object is an external
    collaborator; all the framework can do with it is notify it, so the
    object is represented by the notifications it has received, oldest
    first. *)
Definition EventHandler := list Event.

(** ** Objects *)

(** Addresses of statically allocated [TestInfo] objects. *)
Definition addr := positive.

(** [class Test]: the only data member of the base class is
    [pigweed_test_info_], a pointer to the statically allocated [TestInfo]. *)
Record Test := mkTest {
  pigweed_test_info_ : addr
}.

(** [class Framework]: the non-static data members, in declaration order.
    [current_test_] and [event_handler_] are pointers ([None] is [nullptr]);
    [memory_pool_] is the storage in which test objects are constructed,
    [None] while no object lives in it. *)
Record Framework := mkFramework {
  current_test_ : option Test;
  current_result_ : TestResult;
  run_tests_summary_ : RunTestsSummary;
  exit_status_ : Z;
  event_handler_ : option EventHandler;
  memory_pool_ : option Test
}.

(** [constexpr Framework()] *)
Definition Framework_ctor : Framework :=
  {| current_test_ := None;
     current_result_ := kSuccess;
     run_tests_summary_ := {| passed_tests := 0; failed_tests := 0 |};
     exit_status_ := 0;
     event_handler_ := None;
     memory_pool_ := None |}.

Definition set_current_test_ (t : option Test) (fw : Framework) : Framework :=
  {| current_test_ := t;
     current_result_ := current_result_ fw;
     run_tests_summary_ := run_tests_summary_ fw;
     exit_status_ := exit_status_ fw;
     event_handler_ := event_handler_ fw;
     memory_pool_ := memory_pool_ fw |}.

Definition set_current_result_ (r : TestResult) (fw : Framework) : Framework :=
  {| current_test_ := current_test_ fw;
     current_result_ := r;
     run_tests_summary_ := run_tests_summary_ fw;
     exit_status_ := exit_status_ fw;
     event_handler_ := event_handler_ fw;
     memory_pool_ := memory_pool_ fw |}.

Definition set_run_tests_summary_ (s : RunTestsSummary) (fw : Framework)
  : Framework :=
  {| current_test_ := current_test_ fw;
     current_result_ := current_result_ fw;
     run_tests_summary_ := s;
     exit_status_ := exit_status_ fw;
     event_handler_ := event_handler_ fw;
     memory_pool_ := memory_pool_ fw |}.

Definition set_exit_status_ (z : Z) (fw : Framework) : Framework :=
  {| current_test_ := current_test_ fw;
     current_result_ := current_result_ fw;
     run_tests_summary_ := run_tests_summary_ fw;
     exit_status_ := z;
     event_handler_ := event_handler_ fw;
     memory_pool_ := memory_pool_ fw |}.

Definition set_event_handler_ (h : option EventHandler) (fw : Framework)
  : Framework :=
  {| current_test_ := current_test_ fw;
     current_result_ := current_result_ fw;
     run_tests_summary_ := run_tests_summary_ fw;
     exit_status_ := exit_status_ fw;
     event_handler_ := h;
     memory_pool_ := memory_pool_ fw |}.

Definition set_memory_pool_ (p : option Test) (fw : Framework) : Framework :=
  {| current_test_ := current_test_ fw;
     current_result_ := current_result_ fw;
     run_tests_summary_ := run_tests_summary_ fw;
     exit_status_ := exit_status_ fw;
     event_handler_ := event_handler_ fw;
     memory_pool_ := p |}.

(** Modelled from the spec: a notification goes to the registered Event
    Reporter; without one it is a no-op. *)
Definition dispatch (e : Event) (fw : Framework) : Framework :=
  match event_handler_ fw with
  | None => fw
  | Some h => set_event_handler_ (Some (h ++ [e])) fw
  end.

(** [Framework::RegisterEventHandler] *)
Definition RegisterEventHandler (event_handler : option EventHandler)
    (fw : Framework) : Framework :=
  set_event_handler_ event_handler fw.

(** Modelled from the spec: [Framework::ExpectationResult] is declared in
    the header and defined in framework.cc.  It marks the current test's
    accumulated outcome as failed when [success] is false and notifies the
    Event Reporter of the outcome (description, line, success flag). *)
Definition ExpectationResult (expression : string) (line : Z) (success : bool)
    (fw : Framework) : Framework :=
  let fw1 := if success then fw else set_current_result_ kFailure fw in
  dispatch (on_expectation_result expression line success) fw1.

(** [Framework::CurrentTestExpect] *)
Definition CurrentTestExpect {Expectation_Lhs Expectation_Rhs : Type}
    (expectation : Expectation_Lhs -> Expectation_Rhs -> bool)
    (lhs : Expectation_Lhs) (rhs : Expectation_Rhs)
    (expression : string) (line : Z)
    (fw : Framework) : bool * Framework :=
  let result := expectation lhs rhs in
  let fw' := ExpectationResult expression line result fw in
  (result, fw').

(** ** Operand types *)

(** The comparison operators a pair of operand types offers to
    [_PW_TEST_OP]; in C++ each of them is resolved by overloading, so the six
    are independent of each other. *)
Class Comparable (Lhs Rhs : Type) := {
  op_eq : Lhs -> Rhs -> bool;
  op_ne : Lhs -> Rhs -> bool;
  op_gt : Lhs -> Rhs -> bool;
  op_ge : Lhs -> Rhs -> bool;
  op_lt : Lhs -> Rhs -> bool;
  op_le : Lhs -> Rhs -> bool
}.

#[export] Instance Comparable_int : Comparable Z Z := {|
  op_eq := Z.eqb;
  op_ne := fun l r => negb (Z.eqb l r);
  op_gt := Z.gtb;
  op_ge := Z.geb;
  op_lt := Z.ltb;
  op_le := Z.leb
|}.

(** The operator token handed to [_PW_TEST_OP]. *)
Inductive op_token := op_EQ | op_NE | op_GT | op_GE | op_LT | op_LE.

(** [l op r] *)
Definition apply_op {Lhs Rhs : Type} `{Comparable Lhs Rhs} (op : op_token)
  : Lhs -> Rhs -> bool :=
  match op with
  | op_EQ => op_eq
  | op_NE => op_ne
  | op_GT => op_gt
  | op_GE => op_ge
  | op_LT => op_lt
  | op_LE => op_le
  end.

(** [#op] *)
Definition stringify_op (op : op_token) : string :=
  match op with
  | op_EQ => "=="
  | op_NE => "!="
  | op_GT => ">"
  | op_GE => ">="
  | op_LT => "<"
  | op_LE => "<="
  end.

(** [static_cast<bool>(arg)] *)
Class BoolConvertible (T : Type) := static_cast_bool : T -> bool.

#[export] Instance BoolConvertible_bool : BoolConvertible bool := fun b => b.
#[export] Instance BoolConvertible_int : BoolConvertible Z :=
  fun z => negb (Z.eqb z 0).
#[export] Instance BoolConvertible_ptr {A : Type} : BoolConvertible (option A) :=
  fun p => match p with Some _ => true | None => false end.

(** ** C strings *)

(** Byte-addressed memory; a [const char*] is an offset into it. *)
Definition memory := list byte.
Definition char_ptr := nat.

(** The value of a byte as [unsigned char]. *)
Definition uchar (b : byte) : Z := Z.of_N (Byte.to_N b).

(** [std::strcmp] on the bytes found from two positions on: the first
    position where the two differ decides, as unsigned chars; the
    comparison stops at a NUL.  Reading past the end of the memory, which is
    undefined in C, reads as NUL here. *)
Fixpoint strcmp_bytes (l r : list byte) : Z :=
  match l, r with
  | a :: l', b :: r' =>
      if Byte.eqb a b
      then (if Byte.eqb a x00 then 0 else strcmp_bytes l' r')
      else uchar a - uchar b
  | a :: _, [] => uchar a
  | [], b :: _ => - uchar b
  | [], [] => 0
  end.

Definition strcmp (m : memory) (l r : char_ptr) : Z :=
  strcmp_bytes (drop l m) (drop r m).

(** [p] points to the NUL-terminated string [s] in [m]. *)
Definition c_str (m : memory) (p : char_ptr) (s : list byte) : Prop :=
  Forall (fun b => b <> x00) s /\ exists rest, drop p m = s ++ x00 :: rest.

(** The state of the program under test gives access to its memory. *)
Class ProgramState (U : Type) := memory_of : U -> memory.

(** ** Test code and the macros that build it *)

Section TestCode.
(** [U] is the state of the program under test: what the statements of
    the test bodies read and write. *)
Context {U : Type}.

(** A macro argument: its source text (what [#lhs] gives) and the value
    the expression has when it is evaluated. *)
Record operand (T : Type) := mkOperand {
  text : string;
  value : U -> T
}.
Global Arguments mkOperand {T} _ _.
Global Arguments text {T} _.
Global Arguments value {T} _ _.

(** The expression [_PW_TEST_EXPECT] expands to: one call of
    [Framework::Get().CurrentTestExpect(expectation, lhs, rhs, expression,
    line)].  The callable may read the program state. *)
Inductive expr :=
| Call_CurrentTestExpect {Lhs Rhs : Type}
    (expectation : U -> Lhs -> Rhs -> bool)
    (lhs : U -> Lhs) (rhs : U -> Rhs)
    (expression : string) (line : Z).

(** The statements of a test body: a statement that involves no check, an
    expression statement, and [if (!e) { return; }]. *)
Inductive stmt :=
| Plain (f : U -> U)
| ExprStmt (e : expr)
| IfNotReturn (e : expr).

(** [_PW_TEST_EXPECT(lhs, rhs, expectation, expectation_string)], expanded
    on source line [line]. *)
Definition _PW_TEST_EXPECT (line : Z) {Lhs Rhs : Type}
    (lhs : operand Lhs) (rhs : operand Rhs)
    (expectation : U -> Lhs -> Rhs -> bool)
    (expectation_string : string) : expr :=
  Call_CurrentTestExpect
    expectation
    (value lhs)
    (value rhs)
    (text lhs +:+ " " +:+ expectation_string +:+ " " +:+ text rhs)
    line.

(** [_PW_TEST_ASSERT(lhs, rhs, expectation, expectation_string)] *)
Definition _PW_TEST_ASSERT (line : Z) {Lhs Rhs : Type}
    (lhs : operand Lhs) (rhs : operand Rhs)
    (expectation : U -> Lhs -> Rhs -> bool)
    (expectation_string : string) : stmt :=
  IfNotReturn (_PW_TEST_EXPECT line lhs rhs expectation expectation_string).

(** What the macros below receive as [expect_or_assert]: either
    [_PW_TEST_EXPECT] (which yields an expression) or [_PW_TEST_ASSERT]
    (which yields a statement). *)
Definition expect_or_assert_macro (R : Type) : Type :=
  forall Lhs Rhs : Type,
    operand Lhs -> operand Rhs -> (U -> Lhs -> Rhs -> bool) -> string -> R.

(** [_PW_TEST_OP(expect_or_assert, lhs, rhs, op)] *)
Definition _PW_TEST_OP {R : Type} (expect_or_assert : expect_or_assert_macro R)
    {Lhs Rhs : Type} `{Comparable Lhs Rhs}
    (lhs : operand Lhs) (rhs : operand Rhs) (op : op_token) : R :=
  expect_or_assert Lhs Rhs
    lhs rhs (fun _ l r => apply_op op l r) (stringify_op op).

(** [_PW_TEST_TRUE(expect_or_assert, expr)] *)
Definition _PW_TEST_TRUE {R : Type} (expect_or_assert : expect_or_assert_macro R)
    {T : Type} `{BoolConvertible T} (e : operand T) : R :=
  expect_or_assert T bool
    e
    (mkOperand "true" (fun _ => true))
    (fun _ arg _ => static_cast_bool arg)
    "is".

(** [_PW_TEST_FALSE(expect_or_assert, expr)] *)
Definition _PW_TEST_FALSE {R : Type} (expect_or_assert : expect_or_assert_macro R)
    {T : Type} `{BoolConvertible T} (e : operand T) : R :=
  expect_or_assert T bool
    e
    (mkOperand "false" (fun _ => false))
    (fun _ arg _ => negb (static_cast_bool arg))
    "is".

(** [_PW_TEST_STREQ(expect_or_assert, lhs, rhs)] *)
Definition _PW_TEST_STREQ `{ProgramState U} {R : Type}
    (expect_or_assert : expect_or_assert_macro R)
    (lhs rhs : operand char_ptr) : R :=
  expect_or_assert char_ptr char_ptr
    lhs
    rhs
    (fun u l r => Z.eqb (strcmp (memory_of u) l r) 0)
    "equals".

(** [_PW_TEST_STRNE(expect_or_assert, lhs, rhs)] *)
Definition _PW_TEST_STRNE `{ProgramState U} {R : Type}
    (expect_or_assert : expect_or_assert_macro R)
    (lhs rhs : operand char_ptr) : R :=
  expect_or_assert char_ptr char_ptr
    lhs
    rhs
    (fun u l r => negb (Z.eqb (strcmp (memory_of u) l r) 0))
    "does not equal".

(** The public macros; [line] is the [__LINE__] of the use. *)
Definition EXPECT_EQ (line : Z) {Lhs Rhs} `{Comparable Lhs Rhs} lhs rhs :=
  _PW_TEST_OP (@_PW_TEST_EXPECT line) lhs rhs op_EQ.
Definition EXPECT_NE (line : Z) {Lhs Rhs} `{Comparable Lhs Rhs} lhs rhs :=
  _PW_TEST_OP (@_PW_TEST_EXPECT line) lhs rhs op_NE.
Definition EXPECT_GT (line : Z) {Lhs Rhs} `{Comparable Lhs Rhs} lhs rhs :=
  _PW_TEST_OP (@_PW_TEST_EXPECT line) lhs rhs op_GT.
Definition EXPECT_GE (line : Z) {Lhs Rhs} `{Comparable Lhs Rhs} lhs rhs :=
  _PW_TEST_OP (@_PW_TEST_EXPECT line) lhs rhs op_GE.
Definition EXPECT_LT (line : Z) {Lhs Rhs} `{Comparable Lhs Rhs} lhs rhs :=
  _PW_TEST_OP (@_PW_TEST_EXPECT line) lhs rhs op_LT.
Definition EXPECT_LE (line : Z) {Lhs Rhs} `{Comparable Lhs Rhs} lhs rhs :=
  _PW_TEST_OP (@_PW_TEST_EXPECT line) lhs rhs op_LE.
Definition EXPECT_TRUE (line : Z) {T} `{BoolConvertible T} (e : operand T) :=
  _PW_TEST_TRUE (@_PW_TEST_EXPECT line) e.
Definition EXPECT_FALSE (line : Z) {T} `{BoolConvertible T} (e : operand T) :=
  _PW_TEST_FALSE (@_PW_TEST_EXPECT line) e.
Definition EXPECT_STREQ `{ProgramState U} (line : Z) lhs rhs :=
  _PW_TEST_STREQ (@_PW_TEST_EXPECT line) lhs rhs.
Definition EXPECT_STRNE `{ProgramState U} (line : Z) lhs rhs :=
  _PW_TEST_STRNE (@_PW_TEST_EXPECT line) lhs rhs.

Definition ASSERT_EQ (line : Z) {Lhs Rhs} `{Comparable Lhs Rhs} lhs rhs :=
  _PW_TEST_OP (@_PW_TEST_ASSERT line) lhs rhs op_EQ.
Definition ASSERT_NE (line : Z) {Lhs Rhs} `{Comparable Lhs Rhs} lhs rhs :=
  _PW_TEST_OP (@_PW_TEST_ASSERT line) lhs rhs op_NE.
Definition ASSERT_GT (line : Z) {Lhs Rhs} `{Comparable Lhs Rhs} lhs rhs :=
  _PW_TEST_OP (@_PW_TEST_ASSERT line) lhs rhs op_GT.
Definition ASSERT_GE (line : Z) {Lhs Rhs} `{Comparable Lhs Rhs} lhs rhs :=
  _PW_TEST_OP (@_PW_TEST_ASSERT line) lhs rhs op_GE.
Definition ASSERT_LT (line : Z) {Lhs Rhs} `{Comparable Lhs Rhs} lhs rhs :=
  _PW_TEST_OP (@_PW_TEST_ASSERT line) lhs rhs op_LT.
Definition ASSERT_LE (line : Z) {Lhs Rhs} `{Comparable Lhs Rhs} lhs rhs :=
  _PW_TEST_OP (@_PW_TEST_ASSERT line) lhs rhs op_LE.
Definition ASSERT_TRUE (line : Z) {T} `{BoolConvertible T} (e : operand T) :=
  _PW_TEST_TRUE (@_PW_TEST_ASSERT line) e.
Definition ASSERT_FALSE (line : Z) {T} `{BoolConvertible T} (e : operand T) :=
  _PW_TEST_FALSE (@_PW_TEST_ASSERT line) e.
Definition ASSERT_STREQ `{ProgramState U} (line : Z) lhs rhs :=
  _PW_TEST_STREQ (@_PW_TEST_ASSERT line) lhs rhs.
Definition ASSERT_STRNE `{ProgramState U} (line : Z) lhs rhs :=
  _PW_TEST_STRNE (@_PW_TEST_ASSERT line) lhs rhs.

(** *** Running test code *)

(** Evaluating the call: the operands are evaluated in the current state
    and passed to [CurrentTestExpect]; the value is its [bool]. *)
Definition eval_expr (e : expr) (u : U) (fw : Framework) : bool * Framework :=
  match e with
  | Call_CurrentTestExpect expectation lhs rhs expression line =>
      CurrentTestExpect (expectation u) (lhs u) (rhs u) expression line fw
  end.

(** After a statement, control either goes on to the next statement or
    has returned from the body. *)
Inductive flow := Next | Returned.

Definition exec_stmt (s : stmt) (u : U) (fw : Framework)
  : flow * U * Framework :=
  match s with
  | Plain f => (Next, f u, fw)
  | ExprStmt e =>
      let '(_, fw') := eval_expr e u fw in (Next, u, fw')
  | IfNotReturn e =>
      let '(result, fw') := eval_expr e u fw in
      if negb result then (Returned, u, fw') else (Next, u, fw')
  end.

(** A body is the sequence of its statements. *)
Fixpoint exec_body (body : list stmt) (u : U) (fw : Framework)
  : U * Framework :=
  match body with
  | [] => (u, fw)
  | s :: rest =>
      match exec_stmt s u fw with
      | (Next, u', fw') => exec_body rest u' fw'
      | (Returned, u', fw') => (u', fw')
      end
  end.

(** *** Test classes and their registration *)

(** The class [_PW_TEST] defines for one test: its size, the address of
    its static member [test_info_], what constructing an object of the
    class executes (the body of the constructor of the parent class; the
    constructor of the generated class itself only sets the test info), the
    body the user wrote for [PigweedTestBody], and what destroying the
    object executes (the body of the destructor of the parent class). *)
Record TestClass := mkTestClass {
  sizeof_TestInstance : Z;
  test_info_ : addr;
  constructor_body : list stmt;
  PigweedTestBody : list stmt;
  destructor_body : list stmt
}.

(** [Test::PigweedTestRun] *)
Definition PigweedTestRun (T : TestClass) (u : U) (fw : Framework)
  : U * Framework :=
  exec_body (PigweedTestBody T) u fw.

(** [struct TestInfo].  [run] points to [Framework::CreateAndRunTest]
    instantiated for the test's class, and is represented by that class. *)
Record TestInfo := mkTestInfo {
  test_suite_name : string;
  test_name : string;
  file_name : string;
  run : TestClass;
  next : option addr
}.

Definition set_next (n : option addr) (t : TestInfo) : TestInfo :=
  {| test_suite_name := test_suite_name t;
     test_name := test_name t;
     file_name := file_name t;
     run := run t;
     next := n |}.

(** Static storage: the static member [Framework::tests_], head of the
    linked list of registered tests, and the statically allocated
    [TestInfo] objects by address. *)
Record Registry := mkRegistry {
  tests_ : option addr;
  static_storage : gmap addr TestInfo
}.

(** Static storage before any dynamic initialisation. *)
Definition no_tests : Registry :=
  {| tests_ := None; static_storage := ∅ |}.

(** Modelled from the spec: [Framework::RegisterTest] is declared in the
    header and defined in framework.cc.  It links the entry at the head of
    the registry: no allocation, constant time, no look at the names. *)
Definition RegisterTest (test : addr) (reg : Registry) : Registry :=
  {| tests_ := Some test;
     static_storage := alter (set_next (tests_ reg)) test (static_storage reg) |}.

(** [TestInfo::TestInfo]: the object at [this] gets its four fields and the
    default [next = nullptr], then registers itself. *)
Definition TestInfo_ctor (this : addr)
    (test_suite_name test_name file_name : string) (run : TestClass)
    (reg : Registry) : Registry :=
  let obj := {| test_suite_name := test_suite_name;
                test_name := test_name;
                file_name := file_name;
                run := run;
                next := None |} in
  RegisterTest this
    {| tests_ := tests_ reg;
       static_storage := <[this := obj]> (static_storage reg) |}.

(** *** Running *)

(** Modelled from the spec: [Framework::StartTest] is declared in the
    header and defined in framework.cc.  The test becomes the current
    one, its outcome accumulator starts as passed, and the Event Reporter,
    when there is one, is notified of the start with the names found
    through the test's [pigweed_test_info_].  [None] stands for a read
    through a dangling pointer. *)
Definition StartTest (objs : gmap addr TestInfo) (test : Test) (fw : Framework)
  : option Framework :=
  let fw := set_current_result_ kSuccess (set_current_test_ (Some test) fw) in
  match event_handler_ fw with
  | None => Some fw
  | Some _ =>
      info ← objs !! pigweed_test_info_ test;
      Some (dispatch (on_test_start (test_suite_name info) (test_name info)
                                    (file_name info)) fw)
  end.

(** Modelled from the spec: [Framework::EndTest] is declared in the header
    and defined in framework.cc.  The Event Reporter, when there is one,
    is notified of the end with the test's outcome, and no test is
    current any more. *)
Definition EndTest (objs : gmap addr TestInfo) (test : Test) (fw : Framework)
  : option Framework :=
  let fw := set_current_test_ None fw in
  match event_handler_ fw with
  | None => Some fw
  | Some _ =>
      info ← objs !! pigweed_test_info_ test;
      Some (dispatch (on_test_end (test_suite_name info) (test_name info)
                                  (file_name info) (current_result_ fw)) fw)
  end.

(** [Framework::CreateAndRunTest<TestInstance>], past its static
    assertion (see [CreateAndRunTest_static_assert]).  The placement [new]
    runs the constructor of the parent class and then the constructor of
    the generated class, which calls [PigweedSetTestInfo(&test_info_)]; from
    then on the object lives in the memory pool.  After [EndTest] the
    destructor is called and the pool is free again. *)
Definition CreateAndRunTest (objs : gmap addr TestInfo) (TestInstance : TestClass)
    (u : U) (framework : Framework) : option (U * Framework) :=
  let '(u, framework) := exec_body (constructor_body TestInstance) u framework in
  let test_instance := {| pigweed_test_info_ := test_info_ TestInstance |} in
  let framework := set_memory_pool_ (Some test_instance) framework in
  framework ← StartTest objs test_instance framework;
  let '(u, framework) := PigweedTestRun TestInstance u framework in
  framework ← EndTest objs test_instance framework;
  let '(u, framework) := exec_body (destructor_body TestInstance) u framework in
  Some (u, set_memory_pool_ None framework).

(** Modelled from the spec: updating the Run Summary from the outcome of
    the test that has just run. *)
Definition count_result (r : TestResult) (s : RunTestsSummary)
  : RunTestsSummary :=
  match r with
  | kSuccess => {| passed_tests := passed_tests s + 1;
                   failed_tests := failed_tests s |}
  | kFailure => {| passed_tests := passed_tests s;
                   failed_tests := failed_tests s + 1 |}
  end.

(** Modelled from the spec: the loop of [RunAllTests] over the linked
    list, from the head on: each entry's runner is called, then the Run
    Summary is updated from the per-test outcome.  [fuel] bounds the
    number of entries visited; [None] stands for a loop that has not ended
    within it or has read through a dangling pointer. *)
Fixpoint run_tests_from (fuel : nat) (objs : gmap addr TestInfo)
    (test : option addr) (u : U) (fw : Framework) : option (U * Framework) :=
  match test with
  | None => Some (u, fw)
  | Some a =>
      match fuel with
      | O => None
      | S fuel' =>
          info ← objs !! a;
          '(u', fw') ← CreateAndRunTest objs (run info) u fw;
          let fw'' :=
            set_run_tests_summary_
              (count_result (current_result_ fw') (run_tests_summary_ fw')) fw' in
          run_tests_from fuel' objs (next info) u' fw''
      end
  end.

(** Modelled from the spec: [Framework::RunAllTests] is declared in the
    header and defined in framework.cc.  It resets the Run Summary, runs
    every entry of the registry from head to tail, computes the exit
    status (0 when every test passed, 1 otherwise), keeps it in
    [exit_status_] and returns it.  A list of distinct objects in static
    storage has at most as many entries as there are objects, which is
    the bound given to the loop. *)
Definition RunAllTests (reg : Registry) (u : U) (fw : Framework)
  : option (Z * U * Framework) :=
  let fw := set_run_tests_summary_ {| passed_tests := 0; failed_tests := 0 |} fw in
  '(u', fw') ← run_tests_from (size (static_storage reg)) (static_storage reg)
                              (tests_ reg) u fw;
  let status :=
    if Z.eqb (failed_tests (run_tests_summary_ fw')) 0 then 0 else 1 in
  Some (status, u', set_exit_status_ status fw').

(** *** What the compiler checks *)

(** The outcome of compiling a declaration. *)
Inductive compiled (A : Type) :=
| Built (a : A)
| static_assert_failed (message : string).
Global Arguments Built {A} _.
Global Arguments static_assert_failed {A} _.

(** [alignof(std::max_align_t)] on the target. *)
Variable alignof_max_align_t : Z.

(** [Framework::kTestMemoryPoolSizeBytes] *)
Definition kTestMemoryPoolSizeBytes : Z := 8192.

(** [sizeof(std::aligned_storage_t<Len, Align>)]: [Len] bytes, padded to a
    multiple of the alignment. *)
Definition sizeof_aligned_storage (Len Align : Z) : Z :=
  Align * ((Len + Align - 1) / Align).

(** [sizeof(memory_pool_)] *)
Definition sizeof_memory_pool_ : Z :=
  sizeof_aligned_storage kTestMemoryPoolSizeBytes alignof_max_align_t.

(** The condition of the [static_assert] in [CreateAndRunTest]. *)
Definition CreateAndRunTest_static_assert (TestInstance : TestClass) : bool :=
  Z.leb (sizeof_TestInstance TestInstance) sizeof_memory_pool_.

(** Instantiating [CreateAndRunTest<TestInstance>], which taking its
    address for [TestInfo::run] does. *)
Definition instantiate_CreateAndRunTest (TestInstance : TestClass)
  : compiled TestClass :=
  if CreateAndRunTest_static_assert TestInstance
  then Built TestInstance
  else static_assert_failed
         ("The test memory pool is too small for this test. Either increase "
          +:+ "kTestMemoryPoolSizeBytes or decrease the size of your test fixture.").

(** Modelled from the spec: [PW_STRINGIFY] (pw_preprocessor/util.h) turns
    the tokens of its argument into a string literal; the argument is
    represented by its text. *)
Definition PW_STRINGIFY (tokens : string) : string := tokens.

(** [sizeof] a string literal: its characters and the terminating NUL. *)
Definition sizeof_literal (s : string) : Z := Z.of_nat (String.length s) + 1.

(** A class a test can derive from: [::pw::unit_test::Test] or a fixture.
    The generated class adds no non-static data member, so its size is that
    of the parent; constructing and destroying an object of the generated
    class runs the constructor and the destructor of the parent. *)
Record ParentClass := mkParentClass {
  sizeof_parent : Z;
  parent_constructor : list stmt;
  parent_destructor : list stmt
}.

(** The class [_PW_TEST] defines: [final], derived from [parent_class],
    with a constructor that calls [PigweedSetTestInfo(&test_info_)] after
    the one of the parent, the static member [test_info_] placed at [this],
    and [PigweedTestBody] with the block that follows the macro as its
    body. *)
Definition generated_class (parent_class : ParentClass) (this : addr)
    (body : list stmt) : TestClass :=
  {| sizeof_TestInstance := sizeof_parent parent_class;
     test_info_ := this;
     constructor_body := parent_constructor parent_class;
     PigweedTestBody := body;
     destructor_body := parent_destructor parent_class |}.

(** [_PW_TEST(test_suite_name, test_name, parent_class) { body }] in file
    [FILE], with the static member [test_info_] placed at [this].  When
    the static assertions hold, the expansion contributes the dynamic
    initialisation of [test_info_]. *)
Definition _PW_TEST (test_suite_name test_name : string)
    (parent_class : ParentClass) (FILE : string) (body : list stmt)
    (this : addr) : compiled (Registry -> Registry) :=
  if negb (Z.gtb (sizeof_literal (PW_STRINGIFY test_suite_name)) 1)
  then static_assert_failed "test_suite_name must not be empty"
  else if negb (Z.gtb (sizeof_literal (PW_STRINGIFY test_name)) 1)
  then static_assert_failed "test_name must not be empty"
  else
    let class := generated_class parent_class this body in
    match instantiate_CreateAndRunTest class with
    | static_assert_failed message => static_assert_failed message
    | Built run =>
        Built (TestInfo_ctor this
                 (PW_STRINGIFY test_suite_name)
                 (PW_STRINGIFY test_name)
                 FILE
                 run)
    end.

(** One use of [TEST] or [TEST_F] in the sources. *)
Record declaration := mkDeclaration {
  decl_suite : string;
  decl_name : string;
  decl_parent : ParentClass;
  decl_file : string;
  decl_body : list stmt
}.

(** Building a program from its test declarations and running its
    dynamic initialisation, in the order of the list: every [test_info_]
    gets an address of its own, and the build fails at the first static
    assertion that does.  The declarations are taken to sit in namespaces of
    their own, so that the names of the generated classes do not clash. *)
Fixpoint build_and_initialise (decls : list declaration) (reg : Registry)
  : compiled Registry :=
  match decls with
  | [] => Built reg
  | d :: rest =>
      let this := fresh (dom (static_storage reg)) in
      match _PW_TEST (decl_suite d) (decl_name d) (decl_parent d)
                     (decl_file d) (decl_body d) this with
      | static_assert_failed message => static_assert_failed message
      | Built init => build_and_initialise rest (init reg)
      end
  end.
End TestCode.

Arguments expr U : clear implicits.
Arguments stmt U : clear implicits.
Arguments operand U T : clear implicits.
Arguments TestClass U : clear implicits.
Arguments TestInfo U : clear implicits.
Arguments Registry U : clear implicits.
Arguments ParentClass U : clear implicits.
Arguments declaration U : clear implicits.
Arguments expect_or_assert_macro U R : clear implicits.

(** ** Vocabulary for the properties *)

Section Vocabulary.
Context {U : Type}.

(** One evaluated expectation: description, line, success flag. *)
Definition outcome : Type := string * Z * bool.

Definition succeeded (o : outcome) : bool := snd o.

(** What evaluating the call in state [u] amounts to. *)
Definition expr_outcome (e : expr U) (u : U) : outcome :=
  match e with
  | Call_CurrentTestExpect expectation lhs rhs expression line =>
      (expression, line, expectation u (lhs u) (rhs u))
  end.

(** The expectations a body evaluates when started in [u], in order. *)
Fixpoint evaluated_checks (body : list (stmt U)) (u : U) : list outcome :=
  match body with
  | [] => []
  | Plain f :: rest => evaluated_checks rest (f u)
  | ExprStmt e :: rest => expr_outcome e u :: evaluated_checks rest u
  | IfNotReturn e :: rest =>
      expr_outcome e u ::
      (if succeeded (expr_outcome e u) then evaluated_checks rest u else [])
  end.

(** The program state a body leaves when started in [u]. *)
Fixpoint user_state_after (body : list (stmt U)) (u : U) : U :=
  match body with
  | [] => u
  | Plain f :: rest => user_state_after rest (f u)
  | ExprStmt e :: rest => user_state_after rest u
  | IfNotReturn e :: rest =>
      if succeeded (expr_outcome e u) then user_state_after rest u else u
  end.

(** Reporting a sequence of outcomes, one [ExpectationResult] each. *)
Definition report (os : list outcome) (fw : Framework) : Framework :=
  fold_left (fun fw o => ExpectationResult (fst (fst o)) (snd (fst o)) (snd o) fw)
            os fw.

Definition expectation_event (o : outcome) : Event :=
  on_expectation_result (fst (fst o)) (snd (fst o)) (snd o).


(** The three pieces of code of the test's class. *)
Definition constructor_of (info : TestInfo U) : list (stmt U) :=
  constructor_body (run info).

Definition body_of (info : TestInfo U) : list (stmt U) :=
  PigweedTestBody (run info).

Definition destructor_of (info : TestInfo U) : list (stmt U) :=
  destructor_body (run info).

(** When the test is created in state [u]: the state in which its body
    starts, the state in which its destructor starts, and the state it
    leaves. *)
Definition state_at_body (info : TestInfo U) (u : U) : U :=
  user_state_after (constructor_of info) u.

Definition state_at_destructor (info : TestInfo U) (u : U) : U :=
  user_state_after (body_of info) (state_at_body info u).

Definition user_state_after_test (info : TestInfo U) (u : U) : U :=
  user_state_after (destructor_of info) (state_at_destructor info u).

(** The expectations evaluated by the constructor, by the body and by the
    destructor of a test created in state [u]. *)
Definition constructor_checks (info : TestInfo U) (u : U) : list outcome :=
  evaluated_checks (constructor_of info) u.

Definition body_checks (info : TestInfo U) (u : U) : list outcome :=
  evaluated_checks (body_of info) (state_at_body info u).

Definition destructor_checks (info : TestInfo U) (u : U) : list outcome :=
  evaluated_checks (destructor_of info) (state_at_destructor info u).

(** Whether every expectation the body evaluates succeeds, and the outcome
    the test has when its end is notified. *)
Definition test_passes (info : TestInfo U) (u : U) : bool :=
  forallb succeeded (body_checks info u).

Definition reported_verdict (info : TestInfo U) (u : U) : TestResult :=
  if test_passes info u then kSuccess else kFailure.

(** The outcome the engine holds for the test when its runner returns:
    failed when an expectation evaluated by the body or by the destructor
    failed. *)
Definition verdict (info : TestInfo U) (u : U) : TestResult :=
  if forallb succeeded (destructor_checks info u)
  then reported_verdict info u
  else kFailure.

(** The notifications one test gives rise to. *)
Definition events_of_test (info : TestInfo U) (u : U) : list Event :=
  map expectation_event (constructor_checks info u)
  ++ on_test_start (test_suite_name info) (test_name info) (file_name info)
  :: map expectation_event (body_checks info u)
  ++ on_test_end (test_suite_name info) (test_name info) (file_name info)
                 (reported_verdict info u)
  :: map expectation_event (destructor_checks info u).

(** The engine after one test has been created, run and destroyed. *)
Definition after_test (info : TestInfo U) (u : U) (fw : Framework) : Framework :=
  {| current_test_ := None;
     current_result_ := verdict info u;
     run_tests_summary_ := run_tests_summary_ fw;
     exit_status_ := exit_status_ fw;
     event_handler_ := (fun h => h ++ events_of_test info u) <$> event_handler_ fw;
     memory_pool_ := None |}.





Fixpoint verdicts_of_run (l : list (addr * TestInfo U)) (u : U)
  : list TestResult :=
  match l with
  | [] => []
  | (_, info) :: rest =>
      verdict info u :: verdicts_of_run rest (user_state_after_test info u)
  end.

Fixpoint events_of_run (l : list (addr * TestInfo U)) (u : U) : list Event :=
  match l with
  | [] => []
  | (_, info) :: rest =>
      events_of_test info u
      ++ events_of_run rest (user_state_after_test info u)
  end.

Fixpoint user_state_after_run (l : list (addr * TestInfo U)) (u : U) : U :=
  match l with
  | [] => u
  | (_, info) :: rest =>
      user_state_after_run rest (user_state_after_test info u)
  end.

(** How many of the per-test outcomes are passes, how many failures. *)
Definition is_success (r : TestResult) : bool :=
  match r with kSuccess => true | kFailure => false end.

Definition count_passed (rs : list TestResult) : Z :=
  Z.of_nat (length (List.filter is_success rs)).

Definition count_failed (rs : list TestResult) : Z :=
  Z.of_nat (length (List.filter (fun r => negb (is_success r)) rs)).

(** The summary of a list of per-test outcomes. *)
Definition summary_of (rs : list TestResult) : RunTestsSummary :=
  fold_left (fun s r => count_result r s) rs
            {| passed_tests := 0; failed_tests := 0 |}.

(** The engine while the loop of [RunAllTests] goes through [l]. *)
Fixpoint run_through (l : list (addr * TestInfo U)) (u : U) (fw : Framework)
  : U * Framework :=
  match l with
  | [] => (u, fw)
  | (_, info) :: rest =>
      let fw1 := after_test info u fw in
      run_through rest (user_state_after_test info u)
        (set_run_tests_summary_
           (count_result (current_result_ fw1) (run_tests_summary_ fw1)) fw1)
  end.

(** [linked objs head l]: following [next] from [head] through the
    objects in static storage visits exactly the entries [l] and ends at
    [nullptr]. *)
Inductive linked (objs : gmap addr (TestInfo U))
  : option addr -> list (addr * TestInfo U) -> Prop :=
| linked_nil : linked objs None []
| linked_cons a info l :
    objs !! a = Some info ->
    linked objs (next info) l ->
    linked objs (Some a) ((a, info) :: l).

(** Each entry's runner is the one of the class whose [test_info_] the
    entry is, as [_PW_TEST] makes it. *)
Definition own_runner (e : addr * TestInfo U) : Prop :=
  test_info_ (run (snd e)) = fst e.

(** [registered reg l]: the registry holds the entries [l], head first. *)
Definition registered (reg : Registry U) (l : list (addr * TestInfo U)) : Prop :=
  linked (static_storage reg) (tests_ reg) l /\ Forall own_runner l.

(** Adding up two summaries. *)
Definition add_summary (s1 s2 : RunTestsSummary) : RunTestsSummary :=
  {| passed_tests := passed_tests s1 + passed_tests s2;
     failed_tests := failed_tests s1 + failed_tests s2 |}.

(** What the static assertions have established about an entry, on a
    target with the given [alignof(std::max_align_t)]. *)
Definition checked (alignof_max_align_t : Z) (info : TestInfo U) : Prop :=
  test_suite_name info <> EmptyString
  /\ test_name info <> EmptyString
  /\ sizeof_TestInstance (run info) <= sizeof_memory_pool_ alignof_max_align_t.
End Vocabulary.

(** The use of one assertion form, whatever its strength. *)
Inductive assertion {U : Type} :=
| form_OP {Lhs Rhs : Type} `{Comparable Lhs Rhs}
    (lhs : operand U Lhs) (rhs : operand U Rhs) (op : op_token)
| form_TRUE {T : Type} `{BoolConvertible T} (e : operand U T)
| form_FALSE {T : Type} `{BoolConvertible T} (e : operand U T)
| form_STREQ `{ProgramState U} (lhs rhs : operand U char_ptr)
| form_STRNE `{ProgramState U} (lhs rhs : operand U char_ptr).

(** The form, expanded with [_PW_TEST_EXPECT] or with [_PW_TEST_ASSERT] as
    its [expect_or_assert]. *)
Definition expand {U R : Type} (expect_or_assert : expect_or_assert_macro U R)
    (a : @assertion U) : R :=
  match a with
  | form_OP lhs rhs op => _PW_TEST_OP expect_or_assert lhs rhs op
  | form_TRUE e => _PW_TEST_TRUE expect_or_assert e
  | form_FALSE e => _PW_TEST_FALSE expect_or_assert e
  | form_STREQ lhs rhs => _PW_TEST_STREQ expect_or_assert lhs rhs
  | form_STRNE lhs rhs => _PW_TEST_STRNE expect_or_assert lhs rhs
  end.

(** ** A sample program *)

(** The state of the sample program is its memory, which holds the string
    literals ["foo"], ["foo"] again at another address, and ["bar"]. *)
#[export] Instance ProgramState_memory : ProgramState memory := fun m => m.

Definition sample_memory : memory :=
  [x66; x6f; x6f; x00; x66; x6f; x6f; x00; x62; x61; x72; x00].

(** The source text of a string literal: the characters between double
    quotes. *)
Definition string_literal (s : string) : string :=
  String (Ascii.ascii_of_nat 34) (s +:+ String (Ascii.ascii_of_nat 34) EmptyString).

(** An operand whose value does not depend on the state. *)
Definition constant {T : Type} (text : string) (v : T) : operand memory T :=
  mkOperand text (fun _ => v).

(** [TEST(Sample, Passes) { EXPECT_EQ(1 + 1, 2); }] *)
Definition Sample_Passes_body : list (stmt memory) :=
  [ExprStmt (EXPECT_EQ 11 (constant "1 + 1" (1 + 1)) (constant "2" 2))].

(** [TEST(Sample, Fails) { EXPECT_EQ(2 + 2, 5); EXPECT_TRUE(true); }] *)
Definition Sample_Fails_body : list (stmt memory) :=
  [ExprStmt (EXPECT_EQ 15 (constant "2 + 2" (2 + 2)) (constant "5" 5));
   ExprStmt (EXPECT_TRUE 16 (constant "true" true))].

(** [TEST(Sample, Aborts) { ASSERT_STREQ("foo", "bar"); EXPECT_EQ(1, 1); }],
    with ["foo"] at offset 0 and ["bar"] at offset 8. *)
Definition Sample_Aborts_body : list (stmt memory) :=
  [ASSERT_STREQ 20 (constant (T := char_ptr) (string_literal "foo") 0%nat)
                   (constant (T := char_ptr) (string_literal "bar") 8%nat);
   ExprStmt (EXPECT_EQ 21 (constant "1" 1) (constant "1" 1))].

Definition sample_file : string := "sample_test.cc".

(** The size of [::pw::unit_test::Test] on a 64-bit target: the virtual
    table pointer and [pigweed_test_info_]. *)
Definition Test_class : ParentClass memory :=
  {| sizeof_parent := 16; parent_constructor := []; parent_destructor := [] |}.

(** A fixture holding a buffer larger than the pool. *)
Definition Huge_fixture : ParentClass memory :=
  {| sizeof_parent := 10000; parent_constructor := []; parent_destructor := [] |}.


Definition Failing_destructor_fixture : ParentClass memory :=
  {| sizeof_parent := 16;
     parent_constructor := [];
     parent_destructor := [ExprStmt (EXPECT_TRUE 50 (constant "false" false))] |}.

Definition sample_class (this : addr) (body : list (stmt memory))
  : TestClass memory :=
  generated_class Test_class this body.

(** Dynamic initialisation of the three [test_info_] objects, placed at
    addresses 1, 2 and 3. *)
Definition sample_registry_1 : Registry memory :=
  TestInfo_ctor 1%positive "Sample" "Passes" sample_file
    (sample_class 1%positive Sample_Passes_body) no_tests.

Definition sample_registry_2 : Registry memory :=
  TestInfo_ctor 2%positive "Sample" "Fails" sample_file
    (sample_class 2%positive Sample_Fails_body) sample_registry_1.

Definition sample_registry : Registry memory :=
  TestInfo_ctor 3%positive "Sample" "Aborts" sample_file
    (sample_class 3%positive Sample_Aborts_body) sample_registry_2.

Definition sample_entry_1 : addr * TestInfo memory :=
  (1%positive,
   mkTestInfo "Sample" "Passes" sample_file
     (sample_class 1%positive Sample_Passes_body) None).

Definition sample_entry_2 : addr * TestInfo memory :=
  (2%positive,
   mkTestInfo "Sample" "Fails" sample_file
     (sample_class 2%positive Sample_Fails_body) (Some 1%positive)).

Definition sample_entry_3 : addr * TestInfo memory :=
  (3%positive,
   mkTestInfo "Sample" "Aborts" sample_file
     (sample_class 3%positive Sample_Aborts_body) (Some 2%positive)).

Definition sample_entries : list (addr * TestInfo memory) :=
  [sample_entry_3; sample_entry_2; sample_entry_1].

(** The engine with an event handler that has not heard anything yet. *)
Definition sample_framework : Framework :=
  RegisterEventHandler (Some []) Framework_ctor.



(** The same with the failing expectation in the destructor. *)
Definition destructor_failure_registry : Registry memory :=
  TestInfo_ctor 1%positive "FailsInDestructor" "Passes" sample_file
    (generated_class Failing_destructor_fixture 1%positive Sample_Passes_body)
    no_tests.

(** ** More of the header: checks of a body, names, declarations *)

Section Blocks.
Context {U : Type}.

(** The statement with [ASSERT_*] written as [EXPECT_*]. *)
Definition non_fatal (s : stmt U) : stmt U :=
  match s with
  | IfNotReturn e => ExprStmt e
  | _ => s
  end.

Definition is_check (s : stmt U) : bool :=
  match s with
  | Plain _ => false
  | _ => true
  end.

Definition is_fatal (s : stmt U) : bool :=
  match s with
  | IfNotReturn _ => true
  | _ => false
  end.
End Blocks.

(** Modelled from the spec: [PW_CONCAT] (pw_preprocessor/concat.h) pastes
    its arguments into one token; the tokens are represented by their
    text. *)
Definition PW_CONCAT (tokens : list string) : string :=
  fold_right String.append EmptyString tokens.

(** [_PW_TEST_CLASS_NAME(test_suite_name, test_name)] *)
Definition _PW_TEST_CLASS_NAME (test_suite_name test_name : string) : string :=
  PW_CONCAT [test_suite_name; "_"; test_name; "_Test"].

(** The underscore character. *)
Definition underscore : Ascii.ascii := Ascii.ascii_of_nat 95.

(** No character of the name is an underscore. *)
Fixpoint no_underscore (s : string) : bool :=
  match s with
  | EmptyString => true
  | String c s' => negb (Ascii.eqb c underscore) && no_underscore s'
  end.

(** [PW_TEST(test_suite_name, test_name)]: the parent class is
    [::pw::unit_test::Test], of size [sizeof_Test] on the target. *)
Definition PW_TEST {U : Type} (alignof_max_align_t sizeof_Test : Z)
    (test_suite_name test_name : string) (FILE : string) (body : list (stmt U))
    (this : addr) : compiled (Registry U -> Registry U) :=
  _PW_TEST alignof_max_align_t test_suite_name test_name
    {| sizeof_parent := sizeof_Test;
       parent_constructor := [];
       parent_destructor := [] |} FILE body this.

(** A fixture class: the name it is written with and the class itself. *)
Record Fixture {U : Type} := mkFixture {
  fixture_name : string;
  fixture_class : ParentClass U
}.

(** [TEST_F(test_fixture, test_name)]: the token [test_fixture] is both the
    suite name and the parent class. *)
Definition TEST_F {U : Type} (alignof_max_align_t : Z)
    (test_fixture : @Fixture U) (test_name : string) (FILE : string)
    (body : list (stmt U)) (this : addr)
  : compiled (Registry U -> Registry U) :=
  _PW_TEST alignof_max_align_t (fixture_name test_fixture) test_name
    (fixture_class test_fixture) FILE body this.

(** [TEST(S, N) { ASSERT_EQ(1, 1); ASSERT_EQ(2 + 2, 5); ASSERT_TRUE(true); }] *)
Definition Sample_Guarded_body : list (stmt memory) :=
  [ASSERT_EQ 30 (constant "1" 1) (constant "1" 1);
   ASSERT_EQ 31 (constant "2 + 2" (2 + 2)) (constant "5" 5);
   ASSERT_TRUE 32 (constant "true" true)].

(** A fixture that fits the pool. *)
Definition Sample_fixture : @Fixture memory :=
  {| fixture_name := "SampleFixture";
     fixture_class := {| sizeof_parent := 4096;
                         parent_constructor := [];
                         parent_destructor := [] |} |}.

(** ** The engine, one step at a time *)

Section Engine.
Context {U : Type}.
Implicit Types (u : U) (fw : Framework) (body : list (stmt U)).
Implicit Types (info : TestInfo U) (objs : gmap addr (TestInfo U)).

Lemma eval_expr_outcome (e : expr U) u fw :
  eval_expr e u fw =
    (succeeded (expr_outcome e u), report [expr_outcome e u] fw).
Proof. destruct e; reflexivity. Qed.

Lemma report_cons o os fw :
  report (o :: os) fw = report os (report [o] fw).
Proof. reflexivity. Qed.

Lemma report_app os1 os2 fw :
  report (os1 ++ os2) fw = report os2 (report os1 fw).
Proof. unfold report. apply fold_left_app. Qed.

(** Running a body reports the expectations it evaluates, in order, and
    does nothing else to the engine. *)
Lemma exec_body_report body : forall u fw,
  exec_body body u fw =
    (user_state_after body u, report (evaluated_checks body u) fw).
Proof.
  induction body as [|s rest IH]; intros u fw; [reflexivity|].
  destruct s as [f|e|e]; cbn [exec_body exec_stmt evaluated_checks user_state_after].
  - apply IH.
  - rewrite eval_expr_outcome, IH. reflexivity.
  - rewrite eval_expr_outcome.
    destruct (succeeded (expr_outcome e u)); [|reflexivity].
    change (exec_body rest u (report [expr_outcome e u] fw) =
            (user_state_after rest u,
             report (expr_outcome e u :: evaluated_checks rest u) fw)).
    rewrite IH. reflexivity.
Qed.

(** The engine after a sequence of reports, field by field. *)
Lemma report_closed_form (os : list outcome) : forall fw,
  report os fw =
    {| current_test_ := current_test_ fw;
       current_result_ :=
         if forallb succeeded os then current_result_ fw else kFailure;
       run_tests_summary_ := run_tests_summary_ fw;
       exit_status_ := exit_status_ fw;
       event_handler_ :=
         (fun h => h ++ map expectation_event os) <$> event_handler_ fw;
       memory_pool_ := memory_pool_ fw |}.
Proof.
  induction os as [|[[d ln] ok] os IH]; intros fw.
  - destruct fw as [ct cr su ex [h|] mp]; cbn; [rewrite app_nil_r|]; reflexivity.
  - rewrite report_cons, IH. clear IH.
    destruct fw as [ct cr su ex [h|] mp], ok; cbn;
      rewrite <- ?app_assoc; try reflexivity;
      destruct (forallb succeeded os); reflexivity.
Qed.

Lemma CreateAndRunTest_after_test objs (T : TestClass U) info u fw :
  objs !! test_info_ T = Some info ->
  run info = T ->
  CreateAndRunTest objs T u fw
    = Some (user_state_after_test info u, after_test info u fw).
Proof.
  intros Hobj Hrun. unfold CreateAndRunTest, PigweedTestRun, StartTest, EndTest.
  unfold after_test, events_of_test, verdict, reported_verdict, test_passes.
  unfold user_state_after_test, constructor_checks, body_checks,
    destructor_checks, state_at_destructor, state_at_body.
  unfold constructor_of, body_of, destructor_of.
  rewrite Hrun.
  rewrite (exec_body_report (constructor_body T)), report_closed_form.
  destruct fw as [ct cr su ex [h|] mp]; cbn.
  - rewrite Hobj. cbn. rewrite exec_body_report, report_closed_form. cbn.
    rewrite exec_body_report, report_closed_form. cbn.
    unfold set_memory_pool_, set_event_handler_, set_current_test_. cbn.
    rewrite <- !app_assoc. cbn. rewrite <- ?app_assoc. reflexivity.
  - rewrite exec_body_report, report_closed_form. cbn.
    rewrite exec_body_report, report_closed_form. cbn. reflexivity.
Qed.

(** *** The linked list *)

Lemma linked_functional objs head l1 :
  linked objs head l1 -> forall l2, linked objs head l2 -> l1 = l2.
Proof.
  induction 1 as [|a info l Ha Hl IH]; intros l2 H2; inversion H2; subst.
  - reflexivity.
  - assert (info0 = info) as -> by congruence.
    f_equal. apply IH. assumption.
Qed.

Lemma linked_lookup objs head l :
  linked objs head l ->
  forall a info, (a, info) ∈ l -> objs !! a = Some info.
Proof.
  induction 1 as [|a info l Ha Hl IH]; intros b infob Hin.
  - inversion Hin.
  - apply elem_of_cons in Hin as [[= -> ->]|Hin]; [assumption|].
    eapply IH; eassumption.
Qed.

(** From any entry of the list on, the rest of the list is linked too, and
    is no longer than the whole. *)
Lemma linked_from_entry objs head l :
  linked objs head l ->
  forall a info, (a, info) ∈ l ->
  exists l', linked objs (Some a) ((a, info) :: l')
             /\ (length l' < length l)%nat.
Proof.
  induction 1 as [|a info l Ha Hl IH]; intros b infob Hin.
  - inversion Hin.
  - apply elem_of_cons in Hin as [[= -> ->]|Hin].
    + exists l. split; [constructor; assumption | cbn; lia].
    + destruct (IH _ _ Hin) as (l' & Hl' & Hlen).
      exists l'. split; [assumption | cbn; lia].
Qed.

(** A linked list that ends visits no object twice. *)
Lemma linked_NoDup objs head l :
  linked objs head l -> NoDup l.*1.
Proof.
  induction 1 as [|a info l Ha Hl IH]; cbn; constructor; [|assumption].
  intros Hin. apply list_elem_of_fmap in Hin as ([b infob] & Hb & Hin).
  cbn in Hb. subst b.
  destruct (linked_from_entry _ _ _ Hl _ _ Hin) as (l' & Hl' & Hlen).
  assert (Hall : linked objs (Some a) ((a, info) :: l)) by (constructor; assumption).
  pose proof (linked_functional _ _ _ Hl' _ Hall) as Heq.
  injection Heq as _ Heq. subst l'. lia.
Qed.

Lemma linked_length objs head l :
  linked objs head l -> (length l <= size objs)%nat.
Proof.
  intros Hl.
  rewrite <- (length_fmap fst l), <- (size_dom (D := gset addr) objs).
  apply submseteq_length, NoDup_submseteq; [eapply linked_NoDup; eassumption|].
  intros a Hin. apply elem_of_elements, elem_of_dom.
  apply list_elem_of_fmap in Hin as ([b infob] & -> & Hin). cbn.
  erewrite linked_lookup by eassumption. eauto.
Qed.

(** Objects outside the list can change without the list noticing. *)
Lemma linked_insert_fresh objs head l this obj :
  objs !! this = None ->
  linked objs head l ->
  linked (<[this := obj]> objs) head l.
Proof.
  intros Hfresh. induction 1 as [|a info l Ha Hl IH]; constructor; [|assumption].
  rewrite lookup_insert_ne; [assumption|]. congruence.
Qed.

(** *** The loop of [RunAllTests] *)

Lemma run_tests_from_run_through objs l : forall fuel head u fw,
  linked objs head l ->
  Forall own_runner l ->
  (forall a info, (a, info) ∈ l -> objs !! a = Some info) ->
  (length l <= fuel)%nat ->
  run_tests_from fuel objs head u fw = Some (run_through l u fw).
Proof.
  induction l as [|[a info] l IH]; intros fuel head u fw Hl Hown Hlook Hfuel;
    inversion Hl; subst.
  - destruct fuel; reflexivity.
  - destruct fuel as [|fuel]; [cbn in Hfuel; lia|].
    apply Forall_cons in Hown as [Ha Hown]. unfold own_runner in Ha. cbn in Ha.
    cbn [run_tests_from run_through].
    match goal with H : objs !! a = Some info |- _ => rewrite H end. cbn.
    rewrite (CreateAndRunTest_after_test objs (run info) info);
      [| rewrite Ha; apply Hlook; left | reflexivity].
    cbn. apply IH; try assumption.
    + intros b infob Hin. apply Hlook. right. assumption.
    + cbn in Hfuel. lia.
Qed.

Lemma RunAllTests_registered (reg : Registry U) l u fw :
  registered reg l ->
  RunAllTests reg u fw =
    let '(u', fw') :=
      run_through l u
        (set_run_tests_summary_ {| passed_tests := 0; failed_tests := 0 |} fw) in
    let status :=
      if Z.eqb (failed_tests (run_tests_summary_ fw')) 0 then 0 else 1 in
    Some (status, u', set_exit_status_ status fw').
Proof.
  intros [Hl Hown]. unfold RunAllTests.
  rewrite (run_tests_from_run_through _ l); try assumption.
  - cbn. destruct (run_through l u _). reflexivity.
  - eapply linked_lookup; eassumption.
  - eapply linked_length; eassumption.
Qed.
End Engine.

(** ** A whole run *)

Section Run.
Context {U : Type}.
Implicit Types (u : U) (fw : Framework) (l : list (addr * TestInfo U)).
Implicit Types (rs : list TestResult) (s : RunTestsSummary).

Lemma count_results_from rs : forall s,
  fold_left (fun s r => count_result r s) rs s = add_summary s (summary_of rs).
Proof.
  unfold summary_of.
  induction rs as [|r rs IH]; intros [p f]; cbn [fold_left].
  - unfold add_summary. cbn. f_equal; lia.
  - rewrite IH, (IH (count_result r _)).
    destruct r; unfold add_summary; cbn; f_equal; lia.
Qed.

Lemma summary_of_cons r rs :
  summary_of (r :: rs) =
    add_summary (count_result r {| passed_tests := 0; failed_tests := 0 |})
                (summary_of rs).
Proof. unfold summary_of at 1. cbn [fold_left]. apply count_results_from. Qed.

Lemma summary_of_counts rs :
  summary_of rs
  = {| passed_tests := count_passed rs; failed_tests := count_failed rs |}.
Proof.
  induction rs as [|r rs IH]; [reflexivity|].
  rewrite summary_of_cons, IH. unfold count_passed, count_failed, add_summary.
  destruct r; cbn [List.filter is_success negb length passed_tests failed_tests
                   count_result]; f_equal; lia.
Qed.

Lemma summary_of_nonneg rs :
  0 <= passed_tests (summary_of rs) /\ 0 <= failed_tests (summary_of rs).
Proof.
  induction rs as [|r rs [IHp IHf]]; [cbn; lia|].
  rewrite summary_of_cons. destruct r; cbn; lia.
Qed.

Lemma summary_of_total rs :
  passed_tests (summary_of rs) + failed_tests (summary_of rs)
    = Z.of_nat (length rs).
Proof.
  induction rs as [|r rs IH]; [reflexivity|].
  rewrite summary_of_cons. destruct r; cbn [length]; cbn; lia.
Qed.






Lemma length_verdicts_of_run l : forall u,
  length (verdicts_of_run l u) = length l.
Proof.
  induction l as [|[a info] l IH]; intros u; cbn; [|rewrite IH]; reflexivity.
Qed.

(** The engine after the loop, field by field. *)
Lemma run_through_fields l : forall u fw,
  fst (run_through l u fw) = user_state_after_run l u
  /\ run_tests_summary_ (snd (run_through l u fw))
     = add_summary (run_tests_summary_ fw) (summary_of (verdicts_of_run l u))
  /\ event_handler_ (snd (run_through l u fw))
     = (fun h => h ++ events_of_run l u) <$> event_handler_ fw
  /\ exit_status_ (snd (run_through l u fw)) = exit_status_ fw.
Proof.
  induction l as [|[a info] l IH]; intros u fw.
  - cbn. repeat split.
    + destruct (run_tests_summary_ fw). unfold add_summary. cbn. f_equal; lia.
    + destruct (event_handler_ fw); cbn; [rewrite app_nil_r|]; reflexivity.
  - cbn [run_through user_state_after_run verdicts_of_run events_of_run].
    destruct (IH (user_state_after_test info u)
                 (set_run_tests_summary_
                    (count_result (current_result_ (after_test info u fw))
                       (run_tests_summary_ (after_test info u fw)))
                    (after_test info u fw))) as (Hu & Hs & Hh & He).
    rewrite Hu, Hs, Hh, He. clear IH Hu Hs Hh He.
    repeat split.
    + rewrite summary_of_cons. cbn.
      destruct (verdict info u), (run_tests_summary_ fw);
        unfold add_summary; cbn; f_equal; lia.
    + cbn. destruct (event_handler_ fw); cbn; [|reflexivity].
      rewrite <- app_assoc. reflexivity.
Qed.



(** What a call of [RunAllTests] returns and leaves behind, for a
    registry that holds the entries [l]. *)
Lemma RunAllTests_outcome (reg : Registry U) l u fw :
  registered reg l ->
  exists status fw',
    RunAllTests reg u fw = Some (status, user_state_after_run l u, fw')
    /\ status = (if Z.eqb (failed_tests (summary_of (verdicts_of_run l u))) 0
                 then 0 else 1)
    /\ run_tests_summary_ fw' = summary_of (verdicts_of_run l u)
    /\ event_handler_ fw' = (fun h => h ++ events_of_run l u) <$> event_handler_ fw
    /\ exit_status_ fw' = status.
Proof.
  intros Hreg. rewrite (RunAllTests_registered reg l) by assumption.
  destruct (run_through_fields l u
              (set_run_tests_summary_ {| passed_tests := 0; failed_tests := 0 |} fw))
    as (Hu & Hs & Hh & _).
  destruct (run_through l u _) as [u' fw'] eqn:E. cbn in Hu, Hs, Hh.
  assert (Hsum : run_tests_summary_ fw' = summary_of (verdicts_of_run l u)).
  { rewrite Hs. destruct (summary_of (verdicts_of_run l u)).
    unfold add_summary. cbn. reflexivity. }
  eexists _, _. split; [rewrite Hu; reflexivity|].
  rewrite Hsum. repeat split; assumption.
Qed.
End Run.

(** ** Registration and the build *)

Section Registration.
Context {U : Type}.
Implicit Types (reg : Registry U) (l : list (addr * TestInfo U)).

Lemma TestInfo_ctor_storage this suite name file (T : TestClass U) reg :
  static_storage (TestInfo_ctor this suite name file T reg)
    = <[this := mkTestInfo suite name file T (tests_ reg)]> (static_storage reg).
Proof.
  unfold TestInfo_ctor, RegisterTest. cbn. rewrite alter_insert_eq. reflexivity.
Qed.

Lemma TestInfo_ctor_registered this suite name file (T : TestClass U) reg l :
  registered reg l ->
  static_storage reg !! this = None ->
  test_info_ T = this ->
  registered (TestInfo_ctor this suite name file T reg)
             ((this, mkTestInfo suite name file T (tests_ reg)) :: l).
Proof.
  intros [Hl Hown] Hfresh HT. split.
  - rewrite TestInfo_ctor_storage. cbn [TestInfo_ctor RegisterTest tests_].
    constructor.
    + apply lookup_insert_eq.
    + cbn. apply linked_insert_fresh; assumption.
  - constructor; assumption.
Qed.

Variable alignof_max_align_t : Z.

Lemma sizeof_literal_gt_1 (s : string) :
  Z.gtb (sizeof_literal s) 1 = true <-> s <> EmptyString.
Proof.
  unfold sizeof_literal. destruct s; cbn [String.length].
  - split; [discriminate | congruence].
  - split; [discriminate | intros _; apply Z.gtb_lt; lia].
Qed.

Lemma _PW_TEST_Built suite name parent file (body : list (stmt U)) this init :
  _PW_TEST alignof_max_align_t suite name parent file body this = Built init ->
  suite <> EmptyString /\ name <> EmptyString
  /\ sizeof_parent parent <= sizeof_memory_pool_ alignof_max_align_t
  /\ init = TestInfo_ctor this suite name file
              (generated_class parent this body).
Proof.
  unfold _PW_TEST, instantiate_CreateAndRunTest, CreateAndRunTest_static_assert,
    PW_STRINGIFY.
  destruct (Z.gtb (sizeof_literal suite) 1) eqn:Es; [|discriminate].
  destruct (Z.gtb (sizeof_literal name) 1) eqn:En; [|discriminate].
  cbn. destruct (Z.leb_spec (sizeof_parent parent)
                   (sizeof_memory_pool_ alignof_max_align_t)); [|discriminate].
  intros [= <-]. apply sizeof_literal_gt_1 in Es, En. auto.
Qed.

Lemma build_and_initialise_registered (decls : list (declaration U)) :
  forall reg l reg',
  registered reg l ->
  build_and_initialise alignof_max_align_t decls reg = Built reg' ->
  exists l', registered reg' (l' ++ l) /\ length l' = length decls.
Proof.
  induction decls as [|d decls IH]; intros reg l reg' Hreg Hbuild;
    cbn [build_and_initialise] in Hbuild.
  - injection Hbuild as <-. exists []. auto.
  - destruct (_PW_TEST _ _ _ _ _ _ _) as [init|] eqn:E; [|discriminate].
    apply _PW_TEST_Built in E as (_ & _ & _ & ->).
    set (this := fresh (dom (static_storage reg))) in *.
    assert (Hfresh : static_storage reg !! this = None)
      by apply not_elem_of_dom, is_fresh.
    pose proof (TestInfo_ctor_registered this (decl_suite d) (decl_name d)
                  (decl_file d)
                  (generated_class (decl_parent d) this (decl_body d))
                  reg l Hreg Hfresh eq_refl) as Hctor.
    destruct (IH _ _ _ Hctor Hbuild) as (l' & Hreg' & Hlen).
    eexists (l' ++ [_]).
    rewrite <- app_assoc. split; [exact Hreg'|].
    rewrite length_app. cbn. lia.
Qed.

Lemma build_and_initialise_checked (decls : list (declaration U)) :
  forall reg reg',
  (forall a info, static_storage reg !! a = Some info -> checked alignof_max_align_t info) ->
  build_and_initialise alignof_max_align_t decls reg = Built reg' ->
  forall a info,
    static_storage reg' !! a = Some info -> checked alignof_max_align_t info.
Proof.
  induction decls as [|d decls IH]; intros reg reg' Hreg Hbuild;
    cbn [build_and_initialise] in Hbuild.
  - injection Hbuild as <-. assumption.
  - destruct (_PW_TEST _ _ _ _ _ _ _) as [init|] eqn:E; [|discriminate].
    apply _PW_TEST_Built in E as (Hs & Hn & Hsz & ->).
    eapply IH; [|eassumption].
    intros a info. rewrite TestInfo_ctor_storage, lookup_insert.
    case_decide; [|apply Hreg].
    intros [= <-]. repeat split; assumption.
Qed.

Lemma sizeof_memory_pool_exact :
  0 < alignof_max_align_t ->
  (alignof_max_align_t | kTestMemoryPoolSizeBytes) ->
  sizeof_memory_pool_ alignof_max_align_t = kTestMemoryPoolSizeBytes.
Proof.
  intros Hpos [k Hk]. unfold sizeof_memory_pool_, sizeof_aligned_storage.
  rewrite Hk.
  replace (k * alignof_max_align_t + alignof_max_align_t - 1)
    with (k * alignof_max_align_t + (alignof_max_align_t - 1)) by lia.
  rewrite Z.div_add_l by lia. rewrite Z.div_small by lia. lia.
Qed.
End Registration.

(** ** String comparison *)

Section Strings.
Lemma uchar_inj a b : uchar a = uchar b -> a = b.
Proof.
  unfold uchar. intros H. apply N2Z.inj in H.
  pose proof (Byte.of_to_N a) as Ha. rewrite H, Byte.of_to_N in Ha.
  congruence.
Qed.

Lemma uchar_x00 b : uchar b = 0 <-> b = x00.
Proof. split; [intros H; apply uchar_inj; exact H | intros ->; reflexivity]. Qed.

Lemma eqb_refl b : Byte.eqb b b = true.
Proof. apply Byte.byte_dec_lb. reflexivity. Qed.

(** On two NUL-terminated strings, [strcmp] is 0 exactly when the
    character sequences are the same. *)
Lemma strcmp_bytes_zero (s1 : list byte) : forall s2 rest1 rest2,
  Forall (fun b => b <> x00) s1 ->
  Forall (fun b => b <> x00) s2 ->
  strcmp_bytes (s1 ++ x00 :: rest1) (s2 ++ x00 :: rest2) = 0 <-> s1 = s2.
Proof.
  induction s1 as [|a s1 IH]; intros [|b s2] rest1 rest2 H1 H2;
    cbn [app strcmp_bytes].
  - rewrite eqb_refl. split; reflexivity.
  - apply Forall_cons in H2 as [Hb _].
    destruct (Byte.eqb x00 b) eqn:E.
    + apply Byte.byte_dec_bl in E. congruence.
    + split; [|discriminate]. intros H. exfalso. apply Hb, uchar_x00.
      change (uchar x00) with 0 in H. lia.
  - apply Forall_cons in H1 as [Ha _].
    destruct (Byte.eqb a x00) eqn:E.
    + apply Byte.byte_dec_bl in E. congruence.
    + split; [|discriminate]. intros H. exfalso. apply Ha, uchar_x00.
      change (uchar x00) with 0 in H. lia.
  - apply Forall_cons in H1 as [Ha H1]. apply Forall_cons in H2 as [Hb H2].
    destruct (Byte.eqb a b) eqn:E.
    + apply Byte.byte_dec_bl in E. subst b.
      destruct (Byte.eqb a x00) eqn:E0;
        [apply Byte.byte_dec_bl in E0; congruence|].
      rewrite IH by assumption. split; congruence.
    + apply Byte.eqb_false in E. split; [|congruence].
      intros H. exfalso. apply E, uchar_inj. lia.
Qed.

Lemma strcmp_c_str m p q s1 s2 :
  c_str m p s1 -> c_str m q s2 ->
  strcmp m p q = 0 <-> s1 = s2.
Proof.
  intros [H1 [r1 E1]] [H2 [r2 E2]]. unfold strcmp. rewrite E1, E2.
  apply strcmp_bytes_zero; assumption.
Qed.
End Strings.

(** ** Properties of the framework *)

Section Properties.
Context {U : Type}.
Implicit Types (u : U) (fw : Framework) (l : list (addr * TestInfo U)).
Implicit Types (reg : Registry U).


(** Every public macro is one of the forms, expanded with
    [_PW_TEST_EXPECT] or with [_PW_TEST_ASSERT]. *)
Lemma comparison_macros_are_forms {Lhs Rhs : Type} `{Comparable Lhs Rhs}
    (line : Z) (lhs : operand U Lhs) (rhs : operand U Rhs) :
  EXPECT_EQ line lhs rhs = expand (@_PW_TEST_EXPECT U line) (form_OP lhs rhs op_EQ)
  /\ EXPECT_NE line lhs rhs = expand (@_PW_TEST_EXPECT U line) (form_OP lhs rhs op_NE)
  /\ EXPECT_GT line lhs rhs = expand (@_PW_TEST_EXPECT U line) (form_OP lhs rhs op_GT)
  /\ EXPECT_GE line lhs rhs = expand (@_PW_TEST_EXPECT U line) (form_OP lhs rhs op_GE)
  /\ EXPECT_LT line lhs rhs = expand (@_PW_TEST_EXPECT U line) (form_OP lhs rhs op_LT)
  /\ EXPECT_LE line lhs rhs = expand (@_PW_TEST_EXPECT U line) (form_OP lhs rhs op_LE)
  /\ ASSERT_EQ line lhs rhs = expand (@_PW_TEST_ASSERT U line) (form_OP lhs rhs op_EQ)
  /\ ASSERT_NE line lhs rhs = expand (@_PW_TEST_ASSERT U line) (form_OP lhs rhs op_NE)
  /\ ASSERT_GT line lhs rhs = expand (@_PW_TEST_ASSERT U line) (form_OP lhs rhs op_GT)
  /\ ASSERT_GE line lhs rhs = expand (@_PW_TEST_ASSERT U line) (form_OP lhs rhs op_GE)
  /\ ASSERT_LT line lhs rhs = expand (@_PW_TEST_ASSERT U line) (form_OP lhs rhs op_LT)
  /\ ASSERT_LE line lhs rhs = expand (@_PW_TEST_ASSERT U line) (form_OP lhs rhs op_LE).
Proof. repeat split. Qed.

Lemma boolean_macros_are_forms {T : Type} `{BoolConvertible T}
    (line : Z) (e : operand U T) :
  EXPECT_TRUE line e = expand (@_PW_TEST_EXPECT U line) (form_TRUE e)
  /\ EXPECT_FALSE line e = expand (@_PW_TEST_EXPECT U line) (form_FALSE e)
  /\ ASSERT_TRUE line e = expand (@_PW_TEST_ASSERT U line) (form_TRUE e)
  /\ ASSERT_FALSE line e = expand (@_PW_TEST_ASSERT U line) (form_FALSE e).
Proof. repeat split. Qed.

Lemma string_macros_are_forms `{ProgramState U}
    (line : Z) (lhs rhs : operand U char_ptr) :
  EXPECT_STREQ line lhs rhs = expand (@_PW_TEST_EXPECT U line) (form_STREQ lhs rhs)
  /\ EXPECT_STRNE line lhs rhs = expand (@_PW_TEST_EXPECT U line) (form_STRNE lhs rhs)
  /\ ASSERT_STREQ line lhs rhs = expand (@_PW_TEST_ASSERT U line) (form_STREQ lhs rhs)
  /\ ASSERT_STRNE line lhs rhs = expand (@_PW_TEST_ASSERT U line) (form_STRNE lhs rhs).
Proof. repeat split. Qed.


(** C2: when the check fails, the non-fatal form reports the event, marks
    the test failed and goes on with the statements after it; the fatal
    form does the same to the engine and returns from the body at once, so
    that none of the remaining statements runs; and when the body of the
    first entry of the registry starts with that failing fatal check, the
    run goes on with the destructor of the test's fixture and with the
    entries after it. *)
Theorem failed_expect_continues_failed_assert_returns
    (line : Z) {Lhs Rhs : Type} (lhs : operand U Lhs) (rhs : operand U Rhs)
    (expectation : U -> Lhs -> Rhs -> bool) (expectation_string : string)
    (rest : list (stmt U)) u fw
    reg (a : addr) (info : TestInfo U) l :
  expectation u (value lhs u) (value rhs u) = false ->
  registered reg ((a, info) :: l) ->
  body_of info
    = _PW_TEST_ASSERT line lhs rhs expectation expectation_string :: rest ->
  let description :=
    text lhs +:+ " " +:+ expectation_string +:+ " " +:+ text rhs in
  let fw_failed :=
    dispatch (on_expectation_result description line false)
             (set_current_result_ kFailure fw) in
  current_result_ fw_failed = kFailure
  /\ exec_body
       (ExprStmt (_PW_TEST_EXPECT line lhs rhs expectation expectation_string)
        :: rest) u fw
     = exec_body rest u fw_failed
  /\ exec_body
       (_PW_TEST_ASSERT line lhs rhs expectation expectation_string :: rest) u fw
     = (u, fw_failed)
  /\ forall u0,
       state_at_body info u0 = u ->
       let u_end := user_state_after (destructor_of info) u in
       exists status fw',
         RunAllTests reg u0 fw = Some (status, user_state_after_run l u_end, fw')
         /\ status <> 0
         /\ event_handler_ fw'
            = (fun h =>
                 h ++ map expectation_event (constructor_checks info u0)
                   ++ [on_test_start (test_suite_name info) (test_name info)
                                     (file_name info);
                       on_expectation_result description line false;
                       on_test_end (test_suite_name info) (test_name info)
                                   (file_name info) kFailure]
                   ++ map expectation_event
                        (evaluated_checks (destructor_of info) u)
                   ++ events_of_run l u_end) <$> event_handler_ fw
         /\ passed_tests (run_tests_summary_ fw')
            + failed_tests (run_tests_summary_ fw')
            = 1 + Z.of_nat (length l).
Proof.
  intros Hfalse Hreg Hbody description fw_failed.
  split; [|split; [|split]].
  - subst fw_failed. unfold dispatch.
    destruct fw as [ct cr su ex [h|] mp]; reflexivity.
  - cbn. rewrite Hfalse. reflexivity.
  - cbn. rewrite Hfalse. reflexivity.
  - intros u0 Hu0 u_end.
    destruct (RunAllTests_outcome reg _ u0 fw Hreg)
      as (status & fw' & Hrun & Hst & Hsum & Hh & _).
    cbn [user_state_after_run verdicts_of_run events_of_run] in Hrun, Hst, Hsum, Hh.
    assert (Hchecks : body_checks info u0 = [(description, line, false)]).
    { unfold body_checks. rewrite Hu0, Hbody. cbn. rewrite Hfalse. reflexivity. }
    assert (Hdtor : state_at_destructor info u0 = u).
    { unfold state_at_destructor. rewrite Hu0, Hbody. cbn. rewrite Hfalse.
      reflexivity. }
    assert (Huser : user_state_after_test info u0 = u_end).
    { unfold user_state_after_test. rewrite Hdtor. reflexivity. }
    assert (Hreported : reported_verdict info u0 = kFailure).
    { unfold reported_verdict, test_passes. rewrite Hchecks. reflexivity. }
    assert (Hverdict : verdict info u0 = kFailure).
    { unfold verdict. rewrite Hreported.
      destruct (forallb succeeded (destructor_checks info u0)); reflexivity. }
    unfold events_of_test in Hh. unfold destructor_checks in Hh.
    rewrite Hreported, Hchecks, Hdtor in Hh.
    rewrite Huser in Hrun, Hst, Hsum, Hh. rewrite Hverdict in Hst, Hsum.
    exists status, fw'. split; [exact Hrun|]. split; [|split].
    + rewrite Hst, summary_of_cons. cbn.
      pose proof (summary_of_nonneg (verdicts_of_run l u_end)) as [_ Hf].
      destruct (Z.eqb_spec
                  (0 + 1 + failed_tests (summary_of (verdicts_of_run l u_end))) 0);
        lia.
    + rewrite Hh. destruct (event_handler_ fw) as [h|]; cbn; [|reflexivity].
      rewrite <- ?app_assoc. reflexivity.
    + rewrite Hsum, summary_of_total. cbn [length].
      rewrite length_verdicts_of_run. lia.
Qed.

(** C3: [CurrentTestExpect] applies the predicate to the two operands,
    notifies the Event Reporter (when there is one) of the outcome with the
    description, the line and the success flag, marks the outcome of the
    current test as failed when the predicate returned false, leaves the
    rest of the engine alone, and returns exactly the predicate's result. *)
Theorem CurrentTestExpect_reports_and_returns_the_result
    {Lhs Rhs : Type} (expectation : Lhs -> Rhs -> bool) (lhs : Lhs) (rhs : Rhs)
    (expression : string) (line : Z) fw :
  let result := fst (CurrentTestExpect expectation lhs rhs expression line fw) in
  let fw' := snd (CurrentTestExpect expectation lhs rhs expression line fw) in
  result = expectation lhs rhs
  /\ event_handler_ fw'
     = (fun h => h ++ [on_expectation_result expression line (expectation lhs rhs)])
         <$> event_handler_ fw
  /\ current_result_ fw'
     = (if expectation lhs rhs then current_result_ fw else kFailure)
  /\ current_test_ fw' = current_test_ fw
  /\ run_tests_summary_ fw' = run_tests_summary_ fw
  /\ exit_status_ fw' = exit_status_ fw
  /\ memory_pool_ fw' = memory_pool_ fw.
Proof.
  unfold CurrentTestExpect, ExpectationResult, dispatch. cbn.
  destruct (expectation lhs rhs), fw as [ct cr su ex [h|] mp]; cbn;
    repeat split; reflexivity.
Qed.

(** C4: a test class larger than the memory pool does not get past the
    static assertion of [CreateAndRunTest], so the declaration does not
    compile; every entry of a program that was built has a class that fits
    the pool; and creating and running a test at run time does not look at
    the size.  The capacity of the pool is [kTestMemoryPoolSizeBytes] on
    every target whose [alignof(std::max_align_t)], a power of two, is at
    most 8192. *)
Theorem oversized_fixture_fails_to_compile
    (alignof_max_align_t : Z) (T : TestClass U) :
  0 < alignof_max_align_t ->
  (alignof_max_align_t | kTestMemoryPoolSizeBytes) ->
  (kTestMemoryPoolSizeBytes < sizeof_TestInstance T ->
   exists message,
     instantiate_CreateAndRunTest alignof_max_align_t T
     = static_assert_failed message)
  /\ (forall suite name parent file (body : list (stmt U)) this,
        kTestMemoryPoolSizeBytes < sizeof_parent parent ->
        exists message,
          _PW_TEST alignof_max_align_t suite name parent file body this
          = static_assert_failed message)
  /\ (forall decls reg,
        build_and_initialise alignof_max_align_t decls no_tests = Built reg ->
        forall a info,
          static_storage reg !! a = Some info ->
          sizeof_TestInstance (run info) <= kTestMemoryPoolSizeBytes)
  /\ (forall objs (size : Z) u fw,
        CreateAndRunTest objs T u fw
        = CreateAndRunTest objs
            (mkTestClass size (test_info_ T) (constructor_body T)
               (PigweedTestBody T) (destructor_body T)) u fw).
Proof.
  intros Hpos Hdiv.
  pose proof (sizeof_memory_pool_exact alignof_max_align_t Hpos Hdiv) as Hsize.
  split; [|split; [|split]]; [| | |reflexivity].
  - intros Hbig. unfold instantiate_CreateAndRunTest, CreateAndRunTest_static_assert.
    rewrite Hsize.
    destruct (Z.leb_spec (sizeof_TestInstance T) kTestMemoryPoolSizeBytes);
      [lia | eauto].
  - intros suite name parent file body this Hbig.
    destruct (_PW_TEST alignof_max_align_t suite name parent file body this)
      as [init|message] eqn:E; [|eauto].
    apply _PW_TEST_Built in E as (_ & _ & Hle & _). lia.
  - intros decls reg Hbuild a info Ha. rewrite <- Hsize.
    eapply (build_and_initialise_checked alignof_max_align_t decls no_tests reg);
      [|eassumption|eassumption].
    intros b infob Hb. cbn in Hb. rewrite lookup_empty in Hb. discriminate.
Qed.

(** C5: a declaration whose suite name or test name is empty stops at the
    static assertion of [_PW_TEST], a declaration that compiles has both
    names non-empty, and no entry of a program that was built has an empty
    name. *)
Theorem empty_names_fail_to_compile
    (alignof_max_align_t : Z) (suite name : string) (parent : ParentClass U)
    (file : string) (body : list (stmt U)) (this : addr) :
  (suite = EmptyString \/ name = EmptyString ->
   exists message,
     _PW_TEST alignof_max_align_t suite name parent file body this
     = static_assert_failed message)
  /\ (_PW_TEST alignof_max_align_t EmptyString name parent file body this
      = static_assert_failed "test_suite_name must not be empty")
  /\ (suite <> EmptyString ->
      _PW_TEST alignof_max_align_t suite EmptyString parent file body this
      = static_assert_failed "test_name must not be empty")
  /\ (forall init,
        _PW_TEST alignof_max_align_t suite name parent file body this = Built init ->
        suite <> EmptyString /\ name <> EmptyString)
  /\ (forall decls reg,
        build_and_initialise alignof_max_align_t decls no_tests = Built reg ->
        forall a info,
          static_storage reg !! a = Some info ->
          test_suite_name info <> EmptyString /\ test_name info <> EmptyString).
Proof.
  assert (Hnone : forall (b : addr) (infob : TestInfo U),
             static_storage no_tests !! b = Some infob ->
             checked alignof_max_align_t infob).
  { intros b infob Hb. cbn in Hb. rewrite lookup_empty in Hb. discriminate. }
  split; [|split; [|split; [|split]]].
  - intros Hempty.
    destruct (_PW_TEST alignof_max_align_t suite name parent file body this)
      as [init|message] eqn:E; [|eauto].
    apply _PW_TEST_Built in E as (Hs & Hn & _). tauto.
  - reflexivity.
  - intros Hs. apply sizeof_literal_gt_1 in Hs.
    unfold _PW_TEST, PW_STRINGIFY. rewrite Hs. reflexivity.
  - intros init E. apply _PW_TEST_Built in E as (Hs & Hn & _). split; assumption.
  - intros decls reg Hbuild a info Ha.
    destruct (build_and_initialise_checked alignof_max_align_t decls no_tests reg
                Hnone Hbuild a info Ha) as (Hs & Hn & _).
    split; assumption.
Qed.

(** C6: on operands that point to NUL-terminated strings, the
    string-equality forms succeed exactly when the two character sequences
    are equal and the string-inequality forms exactly when they differ;
    where the two pointers point plays no part. *)
Theorem STREQ_STRNE_compare_the_characters `{ProgramState U}
    (line : Z) (lhs rhs : operand U char_ptr) (s1 s2 : list byte) u fw :
  c_str (memory_of u) (value lhs u) s1 ->
  c_str (memory_of u) (value rhs u) s2 ->
  (fst (eval_expr (EXPECT_STREQ line lhs rhs) u fw) = true <-> s1 = s2)
  /\ (fst (eval_expr (EXPECT_STRNE line lhs rhs) u fw) = true <-> s1 <> s2)
  /\ (fst (fst (exec_stmt (ASSERT_STREQ line lhs rhs) u fw)) = Next <-> s1 = s2)
  /\ (fst (fst (exec_stmt (ASSERT_STRNE line lhs rhs) u fw)) = Next <-> s1 <> s2).
Proof.
  intros H1 H2. pose proof (strcmp_c_str _ _ _ _ _ H1 H2) as Hcmp. cbn.
  destruct (Z.eqb_spec (strcmp (memory_of u) (value lhs u) (value rhs u)) 0)
    as [E|E]; cbn; rewrite <- Hcmp; intuition congruence.
Qed.

(** C7: constructing a [TestInfo] links it at the head of the registry,
    in front of the entries already there, and nothing looks at the names:
    two entries constructed with the same names are both in the registry
    and [RunAllTests] runs both. *)
Theorem TestInfo_ctor_links_at_head_without_deduplication
    reg l (this1 this2 : addr) (suite name file : string)
    (T1 T2 : TestClass U) u fw :
  registered reg l ->
  static_storage reg !! this1 = None ->
  static_storage reg !! this2 = None ->
  this1 <> this2 ->
  test_info_ T1 = this1 ->
  test_info_ T2 = this2 ->
  let reg1 := TestInfo_ctor this1 suite name file T1 reg in
  let info1 := mkTestInfo suite name file T1 (tests_ reg) in
  let reg2 := TestInfo_ctor this2 suite name file T2 reg1 in
  let info2 := mkTestInfo suite name file T2 (Some this1) in
  let u1 := user_state_after_test info2 u in
  let u2 := user_state_after_test info1 u1 in
  tests_ reg1 = Some this1
  /\ registered reg1 ((this1, info1) :: l)
  /\ tests_ reg2 = Some this2
  /\ registered reg2 ((this2, info2) :: (this1, info1) :: l)
  /\ exists status fw',
       RunAllTests reg2 u fw = Some (status, user_state_after_run l u2, fw')
       /\ event_handler_ fw'
          = (fun h => h ++ events_of_test info2 u ++ events_of_test info1 u1
                        ++ events_of_run l u2) <$> event_handler_ fw
       /\ passed_tests (run_tests_summary_ fw')
          + failed_tests (run_tests_summary_ fw')
          = 2 + Z.of_nat (length l).
Proof.
  intros Hreg Hf1 Hf2 Hne HT1 HT2 reg1 info1 reg2 info2 u1 u2.
  assert (Hreg1 : registered reg1 ((this1, info1) :: l))
    by (apply TestInfo_ctor_registered; assumption).
  assert (Hreg2 : registered reg2 ((this2, info2) :: (this1, info1) :: l)).
  { apply (TestInfo_ctor_registered this2 suite name file T2 reg1); try assumption.
    subst reg1. rewrite TestInfo_ctor_storage, lookup_insert_ne; assumption. }
  repeat split; try assumption; try apply Hreg1; try apply Hreg2.
  destruct (RunAllTests_outcome reg2 _ u fw Hreg2)
    as (status & fw' & Hrun & _ & Hsum & Hh & _).
  exists status, fw'. repeat split.
  - exact Hrun.
  - rewrite Hh. reflexivity.
  - rewrite Hsum, summary_of_total, length_verdicts_of_run. cbn [length]. lia.
Qed.

(** C8: [RunAllTests] starts from a summary of zero passed and zero
    failed tests whatever the engine held before, so that the summary a
    call leaves counts the tests of that call alone; in two calls in a row
    the summary after the second counts the passes and the failures of the
    second run, not those of both. *)
Theorem RunAllTests_summary_is_of_that_run_alone reg l u fw :
  registered reg l ->
  exists status1 u1 fw1 status2 u2 fw2,
    RunAllTests reg u fw = Some (status1, u1, fw1)
    /\ RunAllTests reg u1 fw1 = Some (status2, u2, fw2)
    /\ run_tests_summary_ fw1
       = {| passed_tests := count_passed (verdicts_of_run l u);
            failed_tests := count_failed (verdicts_of_run l u) |}
    /\ run_tests_summary_ fw2
       = {| passed_tests := count_passed (verdicts_of_run l u1);
            failed_tests := count_failed (verdicts_of_run l u1) |}
    /\ passed_tests (run_tests_summary_ fw1) + failed_tests (run_tests_summary_ fw1)
       = Z.of_nat (length l)
    /\ passed_tests (run_tests_summary_ fw2) + failed_tests (run_tests_summary_ fw2)
       = Z.of_nat (length l).
Proof.
  intros Hreg.
  destruct (RunAllTests_outcome reg l u fw Hreg)
    as (status1 & fw1 & Hrun1 & _ & Hsum1 & _).
  destruct (RunAllTests_outcome reg l (user_state_after_run l u) fw1 Hreg)
    as (status2 & fw2 & Hrun2 & _ & Hsum2 & _).
  exists status1, (user_state_after_run l u), fw1, status2,
    (user_state_after_run l (user_state_after_run l u)), fw2.
  split; [exact Hrun1|]. split; [exact Hrun2|].
  split; [rewrite Hsum1; apply summary_of_counts|].
  split; [rewrite Hsum2; apply summary_of_counts|].
  split; [rewrite Hsum1 | rewrite Hsum2];
    rewrite summary_of_total, length_verdicts_of_run; reflexivity.
Qed.

(** One use of [_PW_TEST_EXPECT] and of [_PW_TEST_ASSERT] with the same
    arguments on the same line, in a state where the predicate gives
    [result] on the operands. *)
Lemma EXPECT_and_ASSERT_evaluate_once
    (line : Z) {Lhs Rhs : Type} (lhs : operand U Lhs) (rhs : operand U Rhs)
    (predicate : U -> Lhs -> Rhs -> bool) (expectation_string : string)
    (rest : list (stmt U)) u fw :
  let e := _PW_TEST_EXPECT line lhs rhs predicate expectation_string in
  let s := _PW_TEST_ASSERT line lhs rhs predicate expectation_string in
  let result := predicate u (value lhs u) (value rhs u) in
  let description :=
    text lhs +:+ " " +:+ expectation_string +:+ " " +:+ text rhs in
  let reported := ExpectationResult description line result fw in
  eval_expr e u fw = (result, reported)
  /\ exec_stmt (ExprStmt e) u fw = (Next, u, reported)
  /\ exec_stmt s u fw = (if result then Next else Returned, u, reported)
  /\ event_handler_ reported
     = (fun h => h ++ [on_expectation_result description line result])
         <$> event_handler_ fw
  /\ current_result_ reported
     = (if result then current_result_ fw else kFailure)
  /\ exec_body (ExprStmt e :: rest) u fw = exec_body rest u reported
  /\ exec_body (s :: rest) u fw
     = (if result then exec_body rest u reported else (u, reported)).
Proof.
  cbn zeta.
  cbn [_PW_TEST_ASSERT _PW_TEST_EXPECT eval_expr exec_stmt exec_body].
  unfold CurrentTestExpect. cbn zeta.
  destruct (predicate u (value lhs u) (value rhs u));
    (split; [reflexivity|]); (split; [reflexivity|]); (split; [reflexivity|]);
    (split; [|split; [|split; reflexivity]]);
    unfold ExpectationResult, dispatch;
    destruct fw as [ct cr su ex [h|] mp]; reflexivity.
Qed.

(** C9: for every assertion form and operands, the fatal and the non-fatal
    macro hand the same operands, the same predicate and the same
    description on the same line to one call of [CurrentTestExpect].  Either
    of them applies the predicate to the operands once and reports the
    result once, as one event; the non-fatal one then goes on, and the fatal
    one goes on exactly when the predicate gave true and has returned from
    the body when it gave false, with the engine as the non-fatal form
    leaves it. *)
Theorem assert_is_expect_with_early_return
    (a : @assertion U) (line : Z) (rest : list (stmt U)) u fw :
  exists (Lhs Rhs : Type) (lhs : operand U Lhs) (rhs : operand U Rhs)
         (predicate : U -> Lhs -> Rhs -> bool) (expectation_string : string),
    (forall (R : Type) (expect_or_assert : expect_or_assert_macro U R),
        expand expect_or_assert a
        = expect_or_assert Lhs Rhs lhs rhs predicate expectation_string)
    /\ let e := expand (@_PW_TEST_EXPECT U line) a in
       let s := expand (@_PW_TEST_ASSERT U line) a in
       let result := predicate u (value lhs u) (value rhs u) in
       let description :=
         text lhs +:+ " " +:+ expectation_string +:+ " " +:+ text rhs in
       let reported := ExpectationResult description line result fw in
       eval_expr e u fw = (result, reported)
       /\ exec_stmt (ExprStmt e) u fw = (Next, u, reported)
       /\ exec_stmt s u fw = (if result then Next else Returned, u, reported)
       /\ event_handler_ reported
          = (fun h => h ++ [on_expectation_result description line result])
              <$> event_handler_ fw
       /\ current_result_ reported
          = (if result then current_result_ fw else kFailure)
       /\ exec_body (ExprStmt e :: rest) u fw = exec_body rest u reported
       /\ exec_body (s :: rest) u fw
          = (if result then exec_body rest u reported else (u, reported)).
Proof.
  destruct a as [Lhs Rhs C lhs rhs op | T B e | T B e | P lhs rhs | P lhs rhs].
  - exists Lhs, Rhs, lhs, rhs, (fun _ x y => apply_op op x y), (stringify_op op).
    split; [reflexivity|]. apply EXPECT_and_ASSERT_evaluate_once.
  - exists T, bool, e, (mkOperand "true" (fun _ => true)),
      (fun _ arg _ => static_cast_bool arg), "is".
    split; [reflexivity|]. apply EXPECT_and_ASSERT_evaluate_once.
  - exists T, bool, e, (mkOperand "false" (fun _ => false)),
      (fun _ arg _ => negb (static_cast_bool arg)), "is".
    split; [reflexivity|]. apply EXPECT_and_ASSERT_evaluate_once.
  - exists char_ptr, char_ptr, lhs, rhs,
      (fun v x y => Z.eqb (strcmp (memory_of v) x y) 0), "equals".
    split; [reflexivity|]. apply EXPECT_and_ASSERT_evaluate_once.
  - exists char_ptr, char_ptr, lhs, rhs,
      (fun v x y => negb (Z.eqb (strcmp (memory_of v) x y) 0)),
      "does not equal".
    split; [reflexivity|]. apply EXPECT_and_ASSERT_evaluate_once.
Qed.

(** C10: the predicate [_PW_TEST_TRUE] hands on is the bool conversion of
    its first argument and [_PW_TEST_FALSE]'s is the negation of it,
    whatever the second argument is; so [EXPECT_TRUE]/[ASSERT_TRUE]
    succeed exactly when the conversion of the operand is true, and
    [EXPECT_FALSE]/[ASSERT_FALSE] exactly when it is false. *)
Theorem TRUE_FALSE_depend_only_on_the_bool_conversion
    {T : Type} `{BoolConvertible T} (e : operand U T) (line : Z) u fw :
  (exists pred : U -> T -> bool -> bool,
      (forall R (m : expect_or_assert_macro U R),
          _PW_TEST_TRUE m e
          = m T bool e (mkOperand "true" (fun _ => true)) pred "is")
      /\ forall u' arg second, pred u' arg second = static_cast_bool arg)
  /\ (exists pred : U -> T -> bool -> bool,
      (forall R (m : expect_or_assert_macro U R),
          _PW_TEST_FALSE m e
          = m T bool e (mkOperand "false" (fun _ => false)) pred "is")
      /\ forall u' arg second, pred u' arg second = negb (static_cast_bool arg))
  /\ fst (eval_expr (EXPECT_TRUE line e) u fw) = static_cast_bool (value e u)
  /\ fst (eval_expr (EXPECT_FALSE line e) u fw)
     = negb (static_cast_bool (value e u))
  /\ fst (fst (exec_stmt (ASSERT_TRUE line e) u fw))
     = (if static_cast_bool (value e u) then Next else Returned)
  /\ fst (fst (exec_stmt (ASSERT_FALSE line e) u fw))
     = (if static_cast_bool (value e u) then Returned else Next).
Proof.
  split; [|split].
  - exists (fun _ arg _ => static_cast_bool arg). split; reflexivity.
  - exists (fun _ arg _ => negb (static_cast_bool arg)). split; reflexivity.
  - cbn. destruct (static_cast_bool (value e u)); repeat split; reflexivity.
Qed.
End Properties.

(** ** The sample program *)

Lemma no_tests_registered {U : Type} : registered (@no_tests U) [].
Proof. split; constructor. Qed.

Lemma sample_registry_1_registered :
  registered sample_registry_1 [sample_entry_1].
Proof.
  apply (TestInfo_ctor_registered 1%positive "Sample" "Passes" sample_file
           (sample_class 1%positive Sample_Passes_body) no_tests []).
  - apply no_tests_registered.
  - reflexivity.
  - reflexivity.
Qed.

Lemma sample_registry_2_registered :
  registered sample_registry_2 [sample_entry_2; sample_entry_1].
Proof.
  apply (TestInfo_ctor_registered 2%positive "Sample" "Fails" sample_file
           (sample_class 2%positive Sample_Fails_body) sample_registry_1
           [sample_entry_1]).
  - apply sample_registry_1_registered.
  - vm_compute. reflexivity.
  - reflexivity.
Qed.

Lemma sample_registered : registered sample_registry sample_entries.
Proof.
  apply (TestInfo_ctor_registered 3%positive "Sample" "Aborts" sample_file
           (sample_class 3%positive Sample_Aborts_body) sample_registry_2
           [sample_entry_2; sample_entry_1]).
  - apply sample_registry_2_registered.
  - vm_compute. reflexivity.
  - reflexivity.
Qed.


(** The run of the sample program: the status is 1, every test has run in
    the order of the list, the expectation after the failed [ASSERT_STREQ]
    has not been evaluated, the one after the failed [EXPECT_EQ] has. *)
Example sample_run :
  RunAllTests sample_registry sample_memory sample_framework
  = Some (1, sample_memory,
          {| current_test_ := None;
             current_result_ := kSuccess;
             run_tests_summary_ := {| passed_tests := 1; failed_tests := 2 |};
             exit_status_ := 1;
             event_handler_ :=
               Some
                 [on_test_start "Sample" "Aborts" sample_file;
                  on_expectation_result
                    (string_literal "foo" +:+ " equals " +:+ string_literal "bar")
                    20 false;
                  on_test_end "Sample" "Aborts" sample_file kFailure;
                  on_test_start "Sample" "Fails" sample_file;
                  on_expectation_result "2 + 2 == 5" 15 false;
                  on_expectation_result "true is true" 16 true;
                  on_test_end "Sample" "Fails" sample_file kFailure;
                  on_test_start "Sample" "Passes" sample_file;
                  on_expectation_result "1 + 1 == 2" 11 true;
                  on_test_end "Sample" "Passes" sample_file kSuccess];
             memory_pool_ := None |}).
Proof. vm_compute. reflexivity. Qed.

(** Without an event handler the accounting is the same. *)
Example sample_run_without_handler :
  RunAllTests sample_registry sample_memory Framework_ctor
  = Some (1, sample_memory,
          {| current_test_ := None;
             current_result_ := kSuccess;
             run_tests_summary_ := {| passed_tests := 1; failed_tests := 2 |};
             exit_status_ := 1;
             event_handler_ := None;
             memory_pool_ := None |}).
Proof. vm_compute. reflexivity. Qed.

(** A second run right after the first leaves the summary of a single
    run, and the handler has heard every event twice. *)
Example sample_run_twice :
  ('(_, u1, fw1) ← RunAllTests sample_registry sample_memory sample_framework;
   '(status2, _, fw2) ← RunAllTests sample_registry u1 fw1;
   Some (status2, run_tests_summary_ fw2, length <$> event_handler_ fw2))
  = Some (1, {| passed_tests := 1; failed_tests := 2 |}, Some 20%nat).
Proof. vm_compute. reflexivity. Qed.

(** A registry with the passing test alone gives status 0. *)
Example sample_run_passing :
  fst <$> RunAllTests sample_registry_1 sample_memory sample_framework
  = Some (0, sample_memory).
Proof. vm_compute. reflexivity. Qed.

(** A failed expectation in the destructor of a fixture comes after the
    end of the test has been notified, with the outcome the test had then;
    the test is counted as failed all the same. *)
Example destructor_failure_run :
  RunAllTests destructor_failure_registry sample_memory sample_framework
  = Some (1, sample_memory,
          {| current_test_ := None;
             current_result_ := kFailure;
             run_tests_summary_ := {| passed_tests := 0; failed_tests := 1 |};
             exit_status_ := 1;
             event_handler_ :=
               Some
                 [on_test_start "FailsInDestructor" "Passes" sample_file;
                  on_expectation_result "1 + 1 == 2" 11 true;
                  on_test_end "FailsInDestructor" "Passes" sample_file kSuccess;
                  on_expectation_result "false is true" 50 false];
             memory_pool_ := None |}).
Proof. vm_compute. reflexivity. Qed.

(** The same program, built from its declarations on a target where
    [alignof(std::max_align_t)] is 16. *)
Example sample_build :
  build_and_initialise 16
    [mkDeclaration "Sample" "Passes" Test_class sample_file Sample_Passes_body;
     mkDeclaration "Sample" "Fails" Test_class sample_file Sample_Fails_body;
     mkDeclaration "Sample" "Aborts" Test_class sample_file Sample_Aborts_body]
    no_tests
  = Built sample_registry.
Proof. vm_compute. reflexivity. Qed.

Example huge_fixture_does_not_build :
  build_and_initialise 16
    [mkDeclaration "Sample" "Passes" Test_class sample_file Sample_Passes_body;
     mkDeclaration "Huge" "Fits" Huge_fixture sample_file Sample_Passes_body]
    no_tests
  = static_assert_failed
      ("The test memory pool is too small for this test. Either increase "
       +:+ "kTestMemoryPoolSizeBytes or decrease the size of your test fixture.").
Proof. vm_compute. reflexivity. Qed.

Example strcmp_sample :
  strcmp sample_memory 0%nat 4%nat = 0
  /\ strcmp sample_memory 0%nat 8%nat = 4
  /\ strcmp sample_memory 8%nat 0%nat = -4.
Proof. vm_compute. repeat split; reflexivity. Qed.

Example empty_suite_name_does_not_build :
  build_and_initialise 16
    [mkDeclaration EmptyString "Passes" Test_class sample_file Sample_Passes_body]
    no_tests
  = static_assert_failed "test_suite_name must not be empty".
Proof. vm_compute. reflexivity. Qed.

(** *** The properties at the sample program *)



Lemma failed_expect_continues_failed_assert_returns_witness :
  Z.eqb (strcmp sample_memory 0%nat 8%nat) 0 = false
  /\ registered sample_registry sample_entries
  /\ body_of (snd sample_entry_3)
     = _PW_TEST_ASSERT 20
         (constant (T := char_ptr) (string_literal "foo") 0%nat)
         (constant (T := char_ptr) (string_literal "bar") 8%nat)
         (fun u l r => Z.eqb (strcmp (memory_of u) l r) 0) "equals"
       :: [ExprStmt (EXPECT_EQ 21 (constant "1" 1) (constant "1" 1))]
  /\ exec_body
       [ExprStmt (EXPECT_STREQ 20
                    (constant (T := char_ptr) (string_literal "foo") 0%nat)
                    (constant (T := char_ptr) (string_literal "bar") 8%nat));
        ExprStmt (EXPECT_EQ 21 (constant "1" 1) (constant "1" 1))]
       sample_memory sample_framework
     = exec_body
         [ExprStmt (EXPECT_EQ 21 (constant "1" 1) (constant "1" 1))]
         sample_memory
         (dispatch
            (on_expectation_result
               (string_literal "foo" +:+ " equals " +:+ string_literal "bar")
               20 false)
            (set_current_result_ kFailure sample_framework))
  /\ exec_body Sample_Aborts_body sample_memory sample_framework
     = (sample_memory,
        dispatch
          (on_expectation_result
             (string_literal "foo" +:+ " equals " +:+ string_literal "bar")
             20 false)
          (set_current_result_ kFailure sample_framework))
  /\ exists status fw',
       RunAllTests sample_registry sample_memory sample_framework
       = Some (status,
               user_state_after_run [sample_entry_2; sample_entry_1] sample_memory,
               fw')
       /\ status <> 0.
Proof.
  assert (Hfalse : Z.eqb (strcmp sample_memory 0%nat 8%nat) 0 = false)
    by (vm_compute; reflexivity).
  assert (Hbody : body_of (snd sample_entry_3)
     = _PW_TEST_ASSERT 20
         (constant (T := char_ptr) (string_literal "foo") 0%nat)
         (constant (T := char_ptr) (string_literal "bar") 8%nat)
         (fun u l r => Z.eqb (strcmp (memory_of u) l r) 0) "equals"
       :: [ExprStmt (EXPECT_EQ 21 (constant "1" 1) (constant "1" 1))])
    by reflexivity.
  pose proof (failed_expect_continues_failed_assert_returns 20
                (constant (T := char_ptr) (string_literal "foo") 0%nat)
                (constant (T := char_ptr) (string_literal "bar") 8%nat)
                (fun u l r => Z.eqb (strcmp (memory_of u) l r) 0) "equals"
                [ExprStmt (EXPECT_EQ 21 (constant "1" 1) (constant "1" 1))]
                sample_memory sample_framework
                sample_registry 3%positive (snd sample_entry_3)
                [sample_entry_2; sample_entry_1]
                Hfalse sample_registered Hbody)
    as (_ & Hexpect & Hassert & Hgoes_on).
  destruct (Hgoes_on sample_memory eq_refl)
    as (status & fw' & Hrun & Hstatus & _).
  split; [exact Hfalse|]. split; [exact sample_registered|].
  split; [exact Hbody|]. split; [exact Hexpect|]. split; [exact Hassert|].
  exists status, fw'. split; [exact Hrun | exact Hstatus].
Defined.

Lemma CurrentTestExpect_reports_and_returns_the_result_witness :
  fst (CurrentTestExpect Z.eqb (2 + 2) 5 "2 + 2 == 5" 15 sample_framework)
  = Z.eqb (2 + 2) 5
  /\ event_handler_
       (snd (CurrentTestExpect Z.eqb (2 + 2) 5 "2 + 2 == 5" 15 sample_framework))
     = Some [on_expectation_result "2 + 2 == 5" 15 false]
  /\ current_result_
       (snd (CurrentTestExpect Z.eqb (2 + 2) 5 "2 + 2 == 5" 15 sample_framework))
     = kFailure.
Proof.
  pose proof (CurrentTestExpect_reports_and_returns_the_result
                Z.eqb (2 + 2) 5 "2 + 2 == 5" 15 sample_framework)
    as (Hresult & Hhandler & Hcurrent & _).
  split; [exact Hresult | split; [exact Hhandler | exact Hcurrent]].
Defined.

Lemma oversized_fixture_fails_to_compile_witness :
  0 < 16
  /\ (16 | kTestMemoryPoolSizeBytes)
  /\ kTestMemoryPoolSizeBytes
     < sizeof_TestInstance
         (generated_class Huge_fixture 1%positive Sample_Passes_body)
  /\ exists message,
       instantiate_CreateAndRunTest 16
         (generated_class Huge_fixture 1%positive Sample_Passes_body)
       = static_assert_failed message.
Proof.
  assert (Hpos : 0 < 16) by lia.
  assert (Hdiv : (16 | kTestMemoryPoolSizeBytes)) by (exists 512; reflexivity).
  assert (Hbig : kTestMemoryPoolSizeBytes
                 < sizeof_TestInstance
                     (generated_class Huge_fixture 1%positive
                        Sample_Passes_body))
    by (vm_compute; reflexivity).
  split; [exact Hpos|]. split; [exact Hdiv|]. split; [exact Hbig|].
  exact (proj1 (oversized_fixture_fails_to_compile 16
                  (generated_class Huge_fixture 1%positive
                     Sample_Passes_body) Hpos Hdiv) Hbig).
Defined.

Lemma empty_names_fail_to_compile_witness :
  _PW_TEST 16 EmptyString "Passes" Test_class sample_file Sample_Passes_body
    1%positive
  = static_assert_failed "test_suite_name must not be empty".
Proof.
  exact (proj1 (proj2 (empty_names_fail_to_compile 16 "Sample" "Passes"
                         Test_class sample_file Sample_Passes_body 1%positive))).
Defined.

Lemma STREQ_STRNE_compare_the_characters_witness :
  c_str sample_memory 0%nat [x66; x6f; x6f]
  /\ c_str sample_memory 4%nat [x66; x6f; x6f]
  /\ (fst (eval_expr
             (EXPECT_STREQ 30 (constant (T := char_ptr) "a" 0%nat)
                              (constant (T := char_ptr) "b" 4%nat))
             sample_memory sample_framework) = true
      <-> [x66; x6f; x6f] = [x66; x6f; x6f]).
Proof.
  assert (H1 : c_str sample_memory 0%nat [x66; x6f; x6f]).
  { split; [repeat constructor; discriminate|].
    exists [x66; x6f; x6f; x00; x62; x61; x72; x00]. reflexivity. }
  assert (H2 : c_str sample_memory 4%nat [x66; x6f; x6f]).
  { split; [repeat constructor; discriminate|].
    exists [x62; x61; x72; x00]. reflexivity. }
  split; [exact H1|]. split; [exact H2|].
  exact (proj1 (STREQ_STRNE_compare_the_characters 30
                  (constant (T := char_ptr) "a" 0%nat)
                  (constant (T := char_ptr) "b" 4%nat)
                  [x66; x6f; x6f] [x66; x6f; x6f]
                  sample_memory sample_framework H1 H2)).
Defined.

Lemma TestInfo_ctor_links_at_head_without_deduplication_witness :
  registered sample_registry_1 [sample_entry_1]
  /\ static_storage sample_registry_1 !! 2%positive = None
  /\ static_storage sample_registry_1 !! 3%positive = None
  /\ 2%positive <> 3%positive
  /\ (let reg1 :=
        TestInfo_ctor 2%positive "Sample" "Twice" sample_file
          (sample_class 2%positive Sample_Fails_body) sample_registry_1 in
      let info1 :=
        mkTestInfo "Sample" "Twice" sample_file
          (sample_class 2%positive Sample_Fails_body) (Some 1%positive) in
      let reg2 :=
        TestInfo_ctor 3%positive "Sample" "Twice" sample_file
          (sample_class 3%positive Sample_Passes_body) reg1 in
      let info2 :=
        mkTestInfo "Sample" "Twice" sample_file
          (sample_class 3%positive Sample_Passes_body) (Some 2%positive) in
      tests_ reg1 = Some 2%positive
      /\ registered reg1 [(2%positive, info1); sample_entry_1]
      /\ tests_ reg2 = Some 3%positive
      /\ registered reg2 [(3%positive, info2); (2%positive, info1); sample_entry_1]
      /\ exists status fw',
           RunAllTests reg2 sample_memory sample_framework
           = Some (status, sample_memory, fw')
           /\ event_handler_ fw'
              = Some
                  [on_test_start "Sample" "Twice" sample_file;
                   on_expectation_result "1 + 1 == 2" 11 true;
                   on_test_end "Sample" "Twice" sample_file kSuccess;
                   on_test_start "Sample" "Twice" sample_file;
                   on_expectation_result "2 + 2 == 5" 15 false;
                   on_expectation_result "true is true" 16 true;
                   on_test_end "Sample" "Twice" sample_file kFailure;
                   on_test_start "Sample" "Passes" sample_file;
                   on_expectation_result "1 + 1 == 2" 11 true;
                   on_test_end "Sample" "Passes" sample_file kSuccess]
           /\ passed_tests (run_tests_summary_ fw')
              + failed_tests (run_tests_summary_ fw')
              = 3).
Proof.
  assert (Hf1 : static_storage sample_registry_1 !! 2%positive = None)
    by (vm_compute; reflexivity).
  assert (Hf2 : static_storage sample_registry_1 !! 3%positive = None)
    by (vm_compute; reflexivity).
  assert (Hne : 2%positive <> 3%positive) by lia.
  split; [exact sample_registry_1_registered|].
  split; [exact Hf1|]. split; [exact Hf2|]. split; [exact Hne|].
  exact (TestInfo_ctor_links_at_head_without_deduplication
           sample_registry_1 [sample_entry_1] 2%positive 3%positive
           "Sample" "Twice" sample_file
           (sample_class 2%positive Sample_Fails_body)
           (sample_class 3%positive Sample_Passes_body)
           sample_memory sample_framework
           sample_registry_1_registered Hf1 Hf2 Hne eq_refl eq_refl).
Defined.

Lemma RunAllTests_summary_is_of_that_run_alone_witness :
  registered sample_registry sample_entries
  /\ exists status1 u1 fw1 status2 u2 fw2,
       RunAllTests sample_registry sample_memory sample_framework
       = Some (status1, u1, fw1)
       /\ RunAllTests sample_registry u1 fw1 = Some (status2, u2, fw2)
       /\ run_tests_summary_ fw1
          = {| passed_tests :=
                 count_passed (verdicts_of_run sample_entries sample_memory);
               failed_tests :=
                 count_failed (verdicts_of_run sample_entries sample_memory) |}
       /\ run_tests_summary_ fw2
          = {| passed_tests := count_passed (verdicts_of_run sample_entries u1);
               failed_tests := count_failed (verdicts_of_run sample_entries u1) |}
       /\ passed_tests (run_tests_summary_ fw1)
          + failed_tests (run_tests_summary_ fw1) = 3
       /\ passed_tests (run_tests_summary_ fw2)
          + failed_tests (run_tests_summary_ fw2) = 3.
Proof.
  split.
  - exact sample_registered.
  - exact (RunAllTests_summary_is_of_that_run_alone
             sample_registry sample_entries sample_memory sample_framework
             sample_registered).
Defined.

Lemma assert_is_expect_with_early_return_witness :
  (exists (Lhs Rhs : Type) (lhs : operand memory Lhs) (rhs : operand memory Rhs)
          (predicate : memory -> Lhs -> Rhs -> bool) (expectation_string : string),
      (forall (R : Type) (expect_or_assert : expect_or_assert_macro memory R),
          _PW_TEST_OP expect_or_assert
            (constant "2 + 2" (2 + 2)) (constant "5" 5) op_EQ
          = expect_or_assert Lhs Rhs lhs rhs predicate expectation_string)
      /\ let e := EXPECT_EQ 15 (constant "2 + 2" (2 + 2)) (constant "5" 5) in
         let s := ASSERT_EQ 15 (constant "2 + 2" (2 + 2)) (constant "5" 5) in
         let rest := [ExprStmt (EXPECT_TRUE 16 (constant "true" true))] in
         let result := predicate sample_memory (value lhs sample_memory)
                                 (value rhs sample_memory) in
         let description :=
           text lhs +:+ " " +:+ expectation_string +:+ " " +:+ text rhs in
         let reported :=
           ExpectationResult description 15 result sample_framework in
         eval_expr e sample_memory sample_framework = (result, reported)
         /\ exec_stmt (ExprStmt e) sample_memory sample_framework
            = (Next, sample_memory, reported)
         /\ exec_stmt s sample_memory sample_framework
            = (if result then Next else Returned, sample_memory, reported)
         /\ event_handler_ reported
            = (fun h => h ++ [on_expectation_result description 15 result])
                <$> event_handler_ sample_framework
         /\ current_result_ reported
            = (if result then current_result_ sample_framework else kFailure)
         /\ exec_body (ExprStmt e :: rest) sample_memory sample_framework
            = exec_body rest sample_memory reported
         /\ exec_body (s :: rest) sample_memory sample_framework
            = (if result
               then exec_body rest sample_memory reported
               else (sample_memory, reported)))
  /\ eval_expr (EXPECT_EQ 15 (constant "2 + 2" (2 + 2)) (constant "5" 5))
       sample_memory sample_framework
     = (false,
        dispatch (on_expectation_result "2 + 2 == 5" 15 false)
                 (set_current_result_ kFailure sample_framework))
  /\ event_handler_
       (snd (exec_body
               [ASSERT_EQ 15 (constant "2 + 2" (2 + 2)) (constant "5" 5);
                ExprStmt (EXPECT_TRUE 16 (constant "true" true))]
               sample_memory sample_framework))
     = Some [on_expectation_result "2 + 2 == 5" 15 false]
  /\ event_handler_
       (snd (exec_body
               [ExprStmt (EXPECT_EQ 15 (constant "2 + 2" (2 + 2)) (constant "5" 5));
                ExprStmt (EXPECT_TRUE 16 (constant "true" true))]
               sample_memory sample_framework))
     = Some [on_expectation_result "2 + 2 == 5" 15 false;
             on_expectation_result "true is true" 16 true].
Proof.
  split.
  - exact (assert_is_expect_with_early_return
             (form_OP (constant "2 + 2" (2 + 2)) (constant "5" 5) op_EQ)
             15 [ExprStmt (EXPECT_TRUE 16 (constant "true" true))]
             sample_memory sample_framework).
  - split; [|split]; vm_compute; reflexivity.
Defined.

Lemma TRUE_FALSE_depend_only_on_the_bool_conversion_witness :
  fst (eval_expr (EXPECT_TRUE 16 (constant "2 + 2" (2 + 2)))
         sample_memory sample_framework) = true
  /\ fst (eval_expr (EXPECT_FALSE 17 (constant "2 + 2" (2 + 2)))
            sample_memory sample_framework) = false
  /\ fst (fst (exec_stmt (ASSERT_TRUE 18 (constant "0" 0))
                 sample_memory sample_framework)) = Returned
  /\ fst (fst (exec_stmt (ASSERT_FALSE 19 (constant "0" 0))
                 sample_memory sample_framework)) = Next.
Proof.
  pose proof (TRUE_FALSE_depend_only_on_the_bool_conversion
                (constant "2 + 2" (2 + 2)) 16 sample_memory sample_framework)
    as (_ & _ & Htrue & _).
  pose proof (TRUE_FALSE_depend_only_on_the_bool_conversion
                (constant "2 + 2" (2 + 2)) 17 sample_memory sample_framework)
    as (_ & _ & _ & Hfalse & _).
  pose proof (TRUE_FALSE_depend_only_on_the_bool_conversion
                (constant "0" 0) 18 sample_memory sample_framework)
    as (_ & _ & _ & _ & Hassert_true & _).
  pose proof (TRUE_FALSE_depend_only_on_the_bool_conversion
                (constant "0" 0) 19 sample_memory sample_framework)
    as (_ & _ & _ & _ & _ & Hassert_false).
  split; [exact Htrue | split; [exact Hfalse | split;
    [exact Hassert_true | exact Hassert_false]]].
Defined.

(** ** Further properties of the header *)

Section Bodies.
Context {U : Type}.
Implicit Types (u : U) (fw : Framework) (body : list (stmt U)).

Lemma IfNotReturn_flow (e : expr U) u fw :
  fst (fst (exec_stmt (IfNotReturn e) u fw)) = Next
  <-> fst (eval_expr e u fw) = true.
Proof.
  cbn [exec_stmt]. destruct (eval_expr e u fw) as [[|] fw']; cbn;
    split; congruence.
Qed.

(** X1: on [int] operands the six comparison macros succeed exactly when
    the left operand is equal to, different from, greater than, at least,
    less than, at most the right one, in that order of the operands; the
    fatal forms go on to the next statement in exactly those cases. *)
Theorem comparison_macros_on_ints
    (line : Z) (lhs rhs : operand U Z) u fw :
  let a := value lhs u in
  let b := value rhs u in
  (fst (eval_expr (EXPECT_EQ line lhs rhs) u fw) = true <-> a = b)
  /\ (fst (eval_expr (EXPECT_NE line lhs rhs) u fw) = true <-> a <> b)
  /\ (fst (eval_expr (EXPECT_GT line lhs rhs) u fw) = true <-> a > b)
  /\ (fst (eval_expr (EXPECT_GE line lhs rhs) u fw) = true <-> a >= b)
  /\ (fst (eval_expr (EXPECT_LT line lhs rhs) u fw) = true <-> a < b)
  /\ (fst (eval_expr (EXPECT_LE line lhs rhs) u fw) = true <-> a <= b)
  /\ (fst (fst (exec_stmt (ASSERT_EQ line lhs rhs) u fw)) = Next <-> a = b)
  /\ (fst (fst (exec_stmt (ASSERT_NE line lhs rhs) u fw)) = Next <-> a <> b)
  /\ (fst (fst (exec_stmt (ASSERT_GT line lhs rhs) u fw)) = Next <-> a > b)
  /\ (fst (fst (exec_stmt (ASSERT_GE line lhs rhs) u fw)) = Next <-> a >= b)
  /\ (fst (fst (exec_stmt (ASSERT_LT line lhs rhs) u fw)) = Next <-> a < b)
  /\ (fst (fst (exec_stmt (ASSERT_LE line lhs rhs) u fw)) = Next <-> a <= b).
Proof.
  intros a b.
  assert (Heq : Z.eqb a b = true <-> a = b) by apply Z.eqb_eq.
  assert (Hne : negb (Z.eqb a b) = true <-> a <> b)
    by (destruct (Z.eqb_spec a b); cbn; intuition congruence).
  assert (Hgt : Z.gtb a b = true <-> a > b) by (rewrite Z.gtb_lt; lia).
  assert (Hge : Z.geb a b = true <-> a >= b) by (rewrite Z.geb_le; lia).
  assert (Hlt : Z.ltb a b = true <-> a < b) by apply Z.ltb_lt.
  assert (Hle : Z.leb a b = true <-> a <= b) by apply Z.leb_le.
  unfold ASSERT_EQ, ASSERT_NE, ASSERT_GT, ASSERT_GE, ASSERT_LT, ASSERT_LE,
    _PW_TEST_OP, _PW_TEST_ASSERT.
  rewrite !IfNotReturn_flow. cbn.
  repeat split; first [apply Heq | apply Hne | apply Hgt | apply Hge
                      | apply Hlt | apply Hle].
Qed.

End Bodies.

Section Checks.
Context {U : Type}.
Implicit Types (u : U) (fw : Framework) (body : list (stmt U)).

Lemma non_fatal_prefix body : forall u,
  exists more,
    evaluated_checks (map non_fatal body) u = evaluated_checks body u ++ more.
Proof.
  induction body as [|[f|e|e] rest IH]; intros u;
    cbn [map non_fatal evaluated_checks].
  - exists []. reflexivity.
  - apply IH.
  - destruct (IH u) as [more Hmore]. exists more. rewrite Hmore. reflexivity.
  - destruct (succeeded (expr_outcome e u)).
    + destruct (IH u) as [more Hmore]. exists more. rewrite Hmore. reflexivity.
    + exists (evaluated_checks (map non_fatal rest) u). reflexivity.
Qed.

Lemma non_fatal_same body : forall u,
  Forall (fun o => succeeded o = true) (evaluated_checks body u) ->
  evaluated_checks (map non_fatal body) u = evaluated_checks body u
  /\ user_state_after (map non_fatal body) u = user_state_after body u.
Proof.
  induction body as [|[f|e|e] rest IH]; intros u H;
    cbn [map non_fatal evaluated_checks user_state_after] in *.
  - split; reflexivity.
  - apply IH, H.
  - apply Forall_cons in H as [_ H]. destruct (IH u H) as [-> ->].
    split; reflexivity.
  - apply Forall_cons in H as [Ho H]. rewrite Ho in *.
    destruct (IH u H) as [-> ->]. split; reflexivity.
Qed.

(** X5: writing [EXPECT_*] for every [ASSERT_*] of a body only adds
    checks: the body evaluates the same checks first, with the same
    outcomes, and then possibly more; and when every check the original body
    evaluates succeeds, the two bodies do the same. *)
Theorem non_fatal_body_extends_the_fatal_one body u :
  exists more,
    evaluated_checks (map non_fatal body) u = evaluated_checks body u ++ more
    /\ (forall fw,
           snd (exec_body (map non_fatal body) u fw)
           = report more (snd (exec_body body u fw)))
    /\ (Forall (fun o => succeeded o = true) (evaluated_checks body u) ->
        more = []
        /\ forall fw, exec_body (map non_fatal body) u fw = exec_body body u fw).
Proof.
  destruct (non_fatal_prefix body u) as [more Hmore].
  exists more. split; [exact Hmore|]. split.
  - intros fw. rewrite !exec_body_report, Hmore. cbn [snd].
    apply report_app.
  - intros Hall. destruct (non_fatal_same body u Hall) as [Hsame Huser].
    split.
    + rewrite Hsame in Hmore.
      apply (f_equal (@length outcome)) in Hmore. rewrite length_app in Hmore.
      destruct more; [reflexivity | cbn in Hmore; lia].
    + intros fw. rewrite !exec_body_report, Hsame, Huser. reflexivity.
Qed.

(** X6: in a body whose checks are all fatal, every evaluated check but
    the last has succeeded: at most one failure is reported, and nothing is
    evaluated after it. *)
Theorem all_fatal_body_reports_at_most_one_failure body u :
  Forall (fun s => is_check s = true -> is_fatal s = true) body ->
  (forall fw, snd (exec_body body u fw) = report (evaluated_checks body u) fw)
  /\ forall os o,
       evaluated_checks body u = os ++ [o] ->
       Forall (fun o' => succeeded o' = true) os.
Proof.
  intros Hfatal. split; [intros fw; rewrite exec_body_report; reflexivity|].
  revert u. induction body as [|[f|e|e] rest IH]; intros u os o Heq;
    cbn [evaluated_checks] in Heq.
  - destruct os; discriminate.
  - apply Forall_cons in Hfatal as [_ Hfatal]. eapply IH; eassumption.
  - apply Forall_cons in Hfatal as [Hs _]. specialize (Hs eq_refl). discriminate.
  - apply Forall_cons in Hfatal as [_ Hfatal].
    destruct (succeeded (expr_outcome e u)) eqn:Ho.
    + destruct os as [|o1 os].
      * constructor.
      * cbn in Heq. injection Heq as <- Heq. constructor; [exact Ho|].
        eapply IH; eassumption.
    + destruct os as [|o1 [|o2 os]]; [constructor | discriminate | discriminate].
Qed.
End Checks.

Section Declarations.
Context {U : Type}.

Lemma _PW_TEST_valid (alignof_max_align_t : Z) suite name parent file
    (body : list (stmt U)) this :
  suite <> EmptyString ->
  name <> EmptyString ->
  sizeof_parent parent <= sizeof_memory_pool_ alignof_max_align_t ->
  _PW_TEST alignof_max_align_t suite name parent file body this
  = Built (TestInfo_ctor this suite name file
             (generated_class parent this body)).
Proof.
  intros Hs Hn Hsize.
  apply sizeof_literal_gt_1 in Hs, Hn.
  unfold _PW_TEST, instantiate_CreateAndRunTest, CreateAndRunTest_static_assert,
    PW_STRINGIFY.
  rewrite Hs, Hn. cbn [negb sizeof_TestInstance generated_class].
  destruct (Z.leb_spec (sizeof_parent parent)
              (sizeof_memory_pool_ alignof_max_align_t)); [reflexivity | lia].
Qed.

(** X7: the three static assertions of a test declaration (the two of
    [_PW_TEST] on the names and the one of [CreateAndRunTest] on the size)
    all hold exactly when the suite name and the test name are non-empty
    and the parent class fits the memory pool.  What the declaration then
    contributes is the construction of its [TestInfo] with the stringified
    names, the file and the generated class.  For [TEST_F] the suite name is
    the name of the fixture and the size that of the fixture; for [PW_TEST]
    the size is that of [::pw::unit_test::Test], so that only the names
    matter once that class fits.  Whether the declaration is otherwise
    well-formed C++ is not part of this. *)
Theorem static_assertions_of_a_declaration_hold_exactly_when
    (alignof_max_align_t : Z) (suite name : string) (parent : ParentClass U)
    (file : string) (body : list (stmt U)) (this : addr) :
  ((suite <> EmptyString /\ name <> EmptyString
    /\ sizeof_parent parent <= sizeof_memory_pool_ alignof_max_align_t)
   <-> exists init,
         _PW_TEST alignof_max_align_t suite name parent file body this
         = Built init)
  /\ (forall init,
        _PW_TEST alignof_max_align_t suite name parent file body this
        = Built init ->
        init = TestInfo_ctor this suite name file
                 (generated_class parent this body))
  /\ (forall test_fixture : @Fixture U,
        (fixture_name test_fixture <> EmptyString /\ name <> EmptyString
         /\ sizeof_parent (fixture_class test_fixture)
            <= sizeof_memory_pool_ alignof_max_align_t)
        <-> TEST_F alignof_max_align_t test_fixture name file body this
            = Built (TestInfo_ctor this (fixture_name test_fixture) name file
                       (generated_class (fixture_class test_fixture)
                          this body)))
  /\ (forall sizeof_Test,
        sizeof_Test <= sizeof_memory_pool_ alignof_max_align_t ->
        (suite <> EmptyString /\ name <> EmptyString)
        <-> PW_TEST alignof_max_align_t sizeof_Test suite name file body this
            = Built (TestInfo_ctor this suite name file
                       (mkTestClass sizeof_Test this [] body []))).
Proof.
  split; [|split; [|split]].
  - split.
    + intros (Hs & Hn & Hsize). eexists. apply _PW_TEST_valid; assumption.
    + intros [init E]. apply _PW_TEST_Built in E as (Hs & Hn & Hsize & _).
      repeat split; assumption.
  - intros init E. apply _PW_TEST_Built in E as (_ & _ & _ & ->). reflexivity.
  - intros test_fixture. unfold TEST_F. split.
    + intros (Hs & Hn & Hsize). apply _PW_TEST_valid; assumption.
    + intros E. apply _PW_TEST_Built in E as (Hs & Hn & Hsize & _).
      repeat split; assumption.
  - intros sizeof_Test Hfits. unfold PW_TEST. split.
    + intros (Hs & Hn).
      apply (_PW_TEST_valid alignof_max_align_t suite name
               (mkParentClass sizeof_Test [] [])); assumption.
    + intros E. apply _PW_TEST_Built in E as (Hs & Hn & _). split; assumption.
Qed.

Lemma sizeof_memory_pool_bounds (alignof_max_align_t : Z) :
  0 < alignof_max_align_t ->
  kTestMemoryPoolSizeBytes <= sizeof_memory_pool_ alignof_max_align_t
  /\ sizeof_memory_pool_ alignof_max_align_t
     < kTestMemoryPoolSizeBytes + alignof_max_align_t.
Proof.
  intros Hpos. unfold sizeof_memory_pool_, sizeof_aligned_storage.
  pose proof (Z.div_mod (kTestMemoryPoolSizeBytes + alignof_max_align_t - 1)
                alignof_max_align_t ltac:(lia)) as Hdm.
  pose proof (Z.mod_pos_bound
                (kTestMemoryPoolSizeBytes + alignof_max_align_t - 1)
                alignof_max_align_t Hpos) as Hmod.
  lia.
Qed.

(** X8: whatever the alignment of the target, the memory pool holds at
    least [kTestMemoryPoolSizeBytes] bytes and less than one alignment unit
    more; so a test class of at most [kTestMemoryPoolSizeBytes] bytes always
    gets past the static assertion of [CreateAndRunTest], a class exactly as
    large as the pool does too, and a class of [kTestMemoryPoolSizeBytes]
    bytes plus the alignment or more never does. *)
Theorem memory_pool_accepts_up_to_kTestMemoryPoolSizeBytes
    (alignof_max_align_t : Z) (T : TestClass U) :
  0 < alignof_max_align_t ->
  (kTestMemoryPoolSizeBytes <= sizeof_memory_pool_ alignof_max_align_t
   /\ sizeof_memory_pool_ alignof_max_align_t
      < kTestMemoryPoolSizeBytes + alignof_max_align_t)
  /\ (sizeof_TestInstance T <= kTestMemoryPoolSizeBytes ->
      instantiate_CreateAndRunTest alignof_max_align_t T = Built T)
  /\ (sizeof_TestInstance T = sizeof_memory_pool_ alignof_max_align_t ->
      instantiate_CreateAndRunTest alignof_max_align_t T = Built T)
  /\ (kTestMemoryPoolSizeBytes + alignof_max_align_t <= sizeof_TestInstance T ->
      exists message,
        instantiate_CreateAndRunTest alignof_max_align_t T
        = static_assert_failed message).
Proof.
  intros Hpos.
  pose proof (sizeof_memory_pool_bounds alignof_max_align_t Hpos) as [Hlo Hhi].
  split; [split; assumption|].
  unfold instantiate_CreateAndRunTest, CreateAndRunTest_static_assert.
  destruct (Z.leb_spec (sizeof_TestInstance T)
              (sizeof_memory_pool_ alignof_max_align_t)) as [Hle|Hgt].
  - split; [reflexivity|]. split; [reflexivity|]. intros Hbig. lia.
  - split; [intros Hsmall; lia|]. split; [intros Heq; lia|]. eauto.
Qed.
End Declarations.

(** *** The life of a test object *)

Section Lifecycle.
Context {U : Type}.

End Lifecycle.

(** *** Names of the generated classes *)

Lemma string_app_cons (x : Ascii.ascii) (a b : string) :
  String x a +:+ b = String x (a +:+ b).
Proof. reflexivity. Qed.

Lemma string_app_length (a b : string) :
  String.length (a +:+ b) = (String.length a + String.length b)%nat.
Proof.
  induction a as [|c a IH]; [reflexivity|].
  rewrite string_app_cons. cbn [String.length]. rewrite IH. reflexivity.
Qed.

Lemma string_app_assoc (a b c : string) :
  (a +:+ b) +:+ c = a +:+ (b +:+ c).
Proof.
  induction a as [|x a IH]; [reflexivity|].
  rewrite !string_app_cons, IH. reflexivity.
Qed.

Lemma string_app_inv_tail (c : string) : forall a b : string,
  a +:+ c = b +:+ c -> a = b.
Proof.
  induction a as [|x a IH]; intros [|y b] H.
  - reflexivity.
  - apply (f_equal String.length) in H.
    rewrite string_app_cons in H. cbn [String.length] in H.
    rewrite !string_app_length in H. cbn [String.length] in H. lia.
  - apply (f_equal String.length) in H.
    rewrite string_app_cons in H. cbn [String.length] in H.
    rewrite !string_app_length in H. cbn [String.length] in H. lia.
  - rewrite !string_app_cons in H. injection H as -> H. f_equal. apply IH, H.
Qed.

Lemma first_underscore_splits (s1 : string) : forall s2 r1 r2 : string,
  no_underscore s1 = true ->
  no_underscore s2 = true ->
  s1 +:+ String underscore r1 = s2 +:+ String underscore r2 ->
  s1 = s2 /\ r1 = r2.
Proof.
  induction s1 as [|c1 s1 IH]; intros [|c2 s2] r1 r2 H1 H2 H;
    rewrite ?string_app_cons in H;
    change (EmptyString +:+ ?x) with x in H; cbn [no_underscore] in H1, H2.
  - injection H as ->. split; reflexivity.
  - injection H as <- _. rewrite Ascii.eqb_refl in H2. discriminate.
  - injection H as -> _. rewrite Ascii.eqb_refl in H1. discriminate.
  - injection H as -> H.
    apply andb_prop in H1 as [_ H1]. apply andb_prop in H2 as [_ H2].
    destruct (IH _ _ _ H1 H2 H) as [-> ->]. split; reflexivity.
Qed.

(** X9: the class generated for a test is named by pasting the suite name,
    an underscore, the test name and [_Test].  An underscore in the names
    can move between them without changing the class name, so two different
    tests can generate the same class; when the suite names hold no
    underscore, equal class names mean equal suite names and equal test
    names. *)
Theorem generated_class_names :
  (forall s n t : string,
      _PW_TEST_CLASS_NAME (s +:+ String underscore n) t
      = _PW_TEST_CLASS_NAME s (n +:+ String underscore t))
  /\ (forall s1 n1 s2 n2 : string,
        no_underscore s1 = true ->
        no_underscore s2 = true ->
        _PW_TEST_CLASS_NAME s1 n1 = _PW_TEST_CLASS_NAME s2 n2 ->
        s1 = s2 /\ n1 = n2).
Proof.
  split.
  - intros s n t. unfold _PW_TEST_CLASS_NAME, PW_CONCAT. cbn [fold_right].
    rewrite !string_app_assoc. reflexivity.
  - intros s1 n1 s2 n2 H1 H2 H.
    unfold _PW_TEST_CLASS_NAME, PW_CONCAT in H. cbn [fold_right] in H.
    change ("_" +:+ ?x) with (String underscore x) in H.
    apply (first_underscore_splits s1 s2) in H as [-> H]; [|assumption..].
    split; [reflexivity|].
    rewrite <- !string_app_assoc in H.
    apply string_app_inv_tail in H.
    apply string_app_inv_tail in H. exact H.
Qed.

(** *** The further properties at the sample program *)

(** The second check of the guarded body fails, so the third is never
    evaluated; written with [EXPECT_*], all three are. *)
Example sample_guarded_checks :
  map succeeded (evaluated_checks Sample_Guarded_body sample_memory)
  = [true; false]
  /\ map succeeded
       (evaluated_checks (map non_fatal Sample_Guarded_body) sample_memory)
     = [true; false; true]
  /\ event_handler_
       (snd (exec_body Sample_Guarded_body sample_memory sample_framework))
     = Some (map expectation_event
               (evaluated_checks Sample_Guarded_body sample_memory)).
Proof. vm_compute. repeat split; reflexivity. Qed.

(** [TEST(a_b, c)] and [TEST(a, b_c)] generate the same class. *)
Example class_name_clash :
  _PW_TEST_CLASS_NAME "a_b" "c" = _PW_TEST_CLASS_NAME "a" "b_c"
  /\ _PW_TEST_CLASS_NAME "a_b" "c" = "a_b_c_Test".
Proof. split; reflexivity. Qed.

(** A test on the sample fixture compiles on a target of alignment 16. *)
Example sample_fixture_compiles :
  TEST_F 16 Sample_fixture "Works" sample_file Sample_Passes_body 1%positive
  = Built (TestInfo_ctor 1%positive "SampleFixture" "Works" sample_file
             (mkTestClass 4096 1%positive [] Sample_Passes_body [])).
Proof. vm_compute. reflexivity. Qed.


Lemma all_fatal_body_reports_at_most_one_failure_witness :
  Forall (fun s : stmt memory => is_check s = true -> is_fatal s = true)
         Sample_Guarded_body
  /\ (forall fw,
         snd (exec_body Sample_Guarded_body sample_memory fw)
         = report (evaluated_checks Sample_Guarded_body sample_memory) fw)
  /\ forall os o,
       evaluated_checks Sample_Guarded_body sample_memory = os ++ [o] ->
       Forall (fun o' => succeeded o' = true) os.
Proof.
  assert (Hfatal : Forall (fun s : stmt memory =>
                             is_check s = true -> is_fatal s = true)
                          Sample_Guarded_body)
    by (repeat constructor).
  split; [exact Hfatal|].
  exact (all_fatal_body_reports_at_most_one_failure
           Sample_Guarded_body sample_memory Hfatal).
Defined.

Lemma memory_pool_accepts_up_to_kTestMemoryPoolSizeBytes_witness :
  0 < 16
  /\ (kTestMemoryPoolSizeBytes <= sizeof_memory_pool_ 16
      /\ sizeof_memory_pool_ 16 < kTestMemoryPoolSizeBytes + 16)
  /\ instantiate_CreateAndRunTest 16
       (mkTestClass 8192 1%positive [] Sample_Passes_body [])
     = Built (mkTestClass 8192 1%positive [] Sample_Passes_body [])
  /\ exists message,
       instantiate_CreateAndRunTest 16
         (mkTestClass 8208 1%positive [] Sample_Passes_body [])
       = static_assert_failed message.
Proof.
  assert (Hpos : 0 < 16) by lia.
  pose proof (memory_pool_accepts_up_to_kTestMemoryPoolSizeBytes 16
                (mkTestClass 8192 1%positive [] Sample_Passes_body []) Hpos)
    as (Hbounds & Hsmall & _).
  pose proof (memory_pool_accepts_up_to_kTestMemoryPoolSizeBytes 16
                (mkTestClass 8208 1%positive [] Sample_Passes_body []) Hpos)
    as (_ & _ & _ & Hbig).
  split; [exact Hpos|]. split; [exact Hbounds|].
  split; [apply Hsmall; vm_compute; discriminate|].
  apply Hbig. vm_compute. discriminate.
Defined.
